(** * learning-plan-app: the lesson-plan backend of [src/app.py]

    A shallow embedding of the three functions that make up the core of the
    application, and of the request handler that drives them:

    - [create_lesson_prompt]  (app.py, lines 19-55)
    - [parse_ai_response]     (app.py, lines 57-98)
    - [create_empty_content]  (app.py, lines 100-110)
    - [generate_content]      (app.py, lines 113-154)

    Python values are an inductive type, Python [str] is a list of Unicode code
    points, a [dict] is an association list in insertion order, exceptions are
    a result type, and the generative service is an oracle threaded through a
    state that also records every prompt sent to it.  Writes to standard
    output ([print]) are diagnostics only and are left out of the model. *)

From Stdlib Require Import String Ascii.
From Stdlib Require Import List ZArith NArith Bool Lia.
From Stdlib Require Import Floats.SpecFloat.
Import ListNotations.
Local Open Scope list_scope.

Set Implicit Arguments.

(* ================================================================== *)
(** * Python strings *)

(** A Python [str] is a sequence of code points. *)
Definition pystr := list N.

(** Literals are written as Rocq strings; their bytes are the UTF-8 encoding
    of the text, which [utf8_decode] turns back into code points. *)
Fixpoint utf8_decode (bs : list N) : pystr :=
  match bs with
  | [] => []
  | b :: r =>
    if (b <? 128)%N then b :: utf8_decode r
    else if (b <? 224)%N then
      match r with
      | c1 :: r1 => ((b - 192) * 64 + (c1 - 128))%N :: utf8_decode r1
      | _ => []
      end
    else if (b <? 240)%N then
      match r with
      | c1 :: c2 :: r2 =>
        ((b - 224) * 4096 + (c1 - 128) * 64 + (c2 - 128))%N :: utf8_decode r2
      | _ => []
      end
    else
      match r with
      | c1 :: c2 :: c3 :: r3 =>
        ((b - 240) * 262144 + (c1 - 128) * 4096 + (c2 - 128) * 64 + (c3 - 128))%N
          :: utf8_decode r3
      | _ => []
      end
  end.

Definition u (s : string) : pystr :=
  utf8_decode (map N_of_ascii (list_ascii_of_string s)).

(** The double quote, the backslash and the line feed. *)
Definition dq : N := 34.
Definition bsl : N := 92.
Definition nl : N := 10.

(** [q s] is [s] between double quotes. *)
Definition q (s : pystr) : pystr := dq :: s ++ [dq].

Fixpoint pystr_eqb (a b : pystr) : bool :=
  match a, b with
  | [], [] => true
  | x :: a', y :: b' => (x =? y)%N && pystr_eqb a' b'
  | _, _ => false
  end.

(** [str.isspace] on one code point: the characters [str.strip()] removes. *)
Definition isspace (c : N) : bool :=
  ((9 <=? c) && (c <=? 13) || (28 <=? c) && (c <=? 32)
   || (c =? 133) || (c =? 160) || (c =? 5760)
   || (8192 <=? c) && (c <=? 8202)
   || (c =? 8232) || (c =? 8233) || (c =? 8239) || (c =? 8287)
   || (c =? 12288))%N.

Fixpoint dropwhile (p : N -> bool) (s : pystr) : pystr :=
  match s with
  | [] => []
  | c :: r => if p c then dropwhile p r else s
  end.

Definition lstrip (s : pystr) : pystr := dropwhile isspace s.
Definition rstrip (s : pystr) : pystr := rev (dropwhile isspace (rev s)).

(** [s.strip()] *)
Definition strip (s : pystr) : pystr := rstrip (lstrip s).

(** [s.startswith(p)] *)
Fixpoint startswith (s p : pystr) {struct p} : bool :=
  match p, s with
  | [], _ => true
  | x :: p', y :: s' => (x =? y)%N && startswith s' p'
  | _ :: _, [] => false
  end.

(** [s.endswith(p)] *)
Definition endswith (s p : pystr) : bool := startswith (rev s) (rev p).

(** The slices [s[n:]] and [s[:-n]] (for [n > 0]); like Python's, they clamp
    at the ends of the string. *)
Definition slice_from (n : nat) (s : pystr) : pystr := skipn n s.
Definition slice_to_neg (n : nat) (s : pystr) : pystr :=
  firstn (length s - n) s.

(* ================================================================== *)
(** * Python values, exceptions, dictionaries *)

(** The values that reach the application: what a JSON document decodes to.
    [int] is unbounded; [float] is IEEE binary64. *)
#[warnings="-register-all"]
Inductive value : Type :=
| VNone
| VBool (b : bool)
| VInt (z : Z)
| VFloat (f : spec_float)
| VStr (s : pystr)
| VList (l : list value)
| VDict (d : list (pystr * value)).

Definition dict := list (pystr * value).

(** [type(v).__name__] *)
Definition type_name (v : value) : pystr :=
  match v with
  | VNone => u "NoneType"
  | VBool _ => u "bool"
  | VInt _ => u "int"
  | VFloat _ => u "float"
  | VStr _ => u "str"
  | VList _ => u "list"
  | VDict _ => u "dict"
  end.

(** Truth value testing ([not v] is [negb (truthy v)]). *)
Definition truthy (v : value) : bool :=
  match v with
  | VNone => false
  | VBool b => b
  | VInt z => negb (z =? 0)%Z
  | VFloat (S754_zero _) => false
  | VFloat _ => true
  | VStr s => match s with [] => false | _ => true end
  | VList l => match l with [] => false | _ => true end
  | VDict d => match d with [] => false | _ => true end
  end.

(** Decimal digits of a natural number, for messages. *)
Fixpoint digits_fuel (fuel : nat) (n : N) (acc : pystr) : pystr :=
  match fuel with
  | O => acc
  | S f =>
    let acc' := (48 + n mod 10)%N :: acc in
    if (n <? 10)%N then acc' else digits_fuel f (n / 10)%N acc'
  end.

Definition str_of_N (n : N) : pystr := digits_fuel (S (N.to_nat (N.log2 n))) n [].
Definition str_of_nat (n : nat) : pystr := str_of_N (N.of_nat n).

(** The exceptions (all subclasses of [Exception]) that occur. *)
Inductive exn : Type :=
| AttributeError (ty attr : pystr)
    (* 'ty' object has no attribute 'attr' *)
| TypeError_not_iterable (ty : pystr)
    (* 'ty' object is not iterable *)
| JSONDecodeError (msg doc : pystr) (pos : nat)
| ValueError (msg : pystr)
| RecursionError
| ExternalError (msg : pystr).
    (* raised by a collaborator (the service client, the web framework);
       [msg] is its [str()] *)

Definition count_nl (s : pystr) : nat :=
  length (filter (fun c => (c =? nl)%N) s).

(** [pos - doc.rfind('\n', 0, pos)]: the 1-based column of [pos]. *)
Fixpoint colno_from (prefix_rev : pystr) : nat :=
  match prefix_rev with
  | [] => 1
  | c :: r => if (c =? nl)%N then 1 else S (colno_from r)
  end.

(** [str(e)] *)
Definition exn_str (e : exn) : pystr :=
  match e with
  | AttributeError ty attr =>
      u "'" ++ ty ++ u "' object has no attribute '" ++ attr ++ u "'"
  | TypeError_not_iterable ty => u "'" ++ ty ++ u "' object is not iterable"
  | JSONDecodeError msg doc pos =>
      let pre := firstn pos doc in
      msg ++ u ": line " ++ str_of_nat (count_nl pre + 1)
          ++ u " column " ++ str_of_nat (colno_from (rev pre))
          ++ u " (char " ++ str_of_nat pos ++ u ")"
  | ValueError msg => msg
  | RecursionError => u "maximum recursion depth exceeded"
  | ExternalError msg => msg
  end.

Inductive result (A : Type) : Type :=
| Ok (a : A)
| Raise (e : exn).
Arguments Ok {A} a.
Arguments Raise {A} e.

Definition rbind {A B} (r : result A) (k : A -> result B) : result B :=
  match r with
  | Ok a => k a
  | Raise e => Raise e
  end.

(** Dictionaries keep insertion order; a key occurs at most once. *)
Fixpoint dict_get (d : dict) (k : pystr) : option value :=
  match d with
  | [] => None
  | (k', v) :: r => if pystr_eqb k' k then Some v else dict_get r k
  end.

Fixpoint dict_set (d : dict) (k : pystr) (v : value) : dict :=
  match d with
  | [] => [(k, v)]
  | (k', v') :: r =>
    if pystr_eqb k' k then (k', v) :: r else (k', v') :: dict_set r k v
  end.

(** [dict(pairs)] *)
Definition dict_of_pairs (pairs : list (pystr * value)) : dict :=
  fold_left (fun d kv => dict_set d (fst kv) (snd kv)) pairs [].

Definition keys (d : dict) : list pystr := map fst d.

(** [obj.get(key, default)]: a method of [dict] only. *)
Definition py_get (obj : value) (key : pystr) (default : value) : result value :=
  match obj with
  | VDict d =>
    Ok (match dict_get d key with Some v => v | None => default end)
  | _ => Raise (AttributeError (type_name obj) (u "get"))
  end.

(** [for x in obj]: the items a [for] loop enumerates. *)
Definition py_iter (obj : value) : result (list value) :=
  match obj with
  | VList l => Ok l
  | VStr s => Ok (map (fun c => VStr [c]) s)
  | VDict d => Ok (map (fun kv => VStr (fst kv)) d)
  | _ => Raise (TypeError_not_iterable (type_name obj))
  end.

(* ================================================================== *)
(** * [json.loads]

    The decoder of CPython 3.11's [json] package ([Lib/json/decoder.py],
    [Lib/json/scanner.py]): [JSONObject], [JSONArray], [py_scanstring] and
    [_scan_once] are followed index by index.  Where the C accelerator that
    CPython runs by default differs (ASCII digits only, strict hexadecimal
    escapes, the text and position of three error messages) the accelerator
    is followed.  A [StopIteration(idx)] of the scanner is turned into
    [JSONDecodeError("Expecting value", s, idx)] by every caller, so
    [scan_once] returns that error directly.  The interpreter's recursion
    limit is not modelled: the fuel below is more than any document needs. *)
Module Json.

Declare Scope result_scope.
Delimit Scope result_scope with result.
Notation "x <- c1 ;; c2" := (rbind c1 (fun x => c2))
  (at level 61, c1 at next level, right associativity) : result_scope.
Notation "' pat <- c1 ;; c2" := (rbind c1 (fun x => match x with pat => c2 end))
  (at level 61, pat pattern, c1 at next level, right associativity) : result_scope.
Local Open Scope result_scope.

Definition ch (a : ascii) : N := N_of_ascii a.

Definition is_char (o : option N) (c : N) : bool :=
  match o with Some x => (x =? c)%N | None => false end.

(** [s[i:i+n]] *)
Definition substr (s : pystr) (i n : nat) : pystr := firstn n (skipn i s).

(** WHITESPACE_STR *)
Definition is_ws (c : N) : bool :=
  ((c =? 32) || (c =? 9) || (c =? 10) || (c =? 13))%N.

(** [nextchar in _ws] for a slice [s[end:end + 1]], which is empty past the
    end of the string (and the empty string is in every string). *)
Definition slice_in_ws (o : option N) : bool :=
  match o with Some c => is_ws c | None => true end.

Fixpoint takewhile (p : N -> bool) (s : pystr) : pystr :=
  match s with
  | [] => []
  | c :: r => if p c then c :: takewhile p r else []
  end.

(** [WHITESPACE.match(s, idx).end()] *)
Definition skip_ws (s : pystr) (idx : nat) : nat :=
  let idx := Nat.min idx (length s) in
  idx + length (takewhile is_ws (skipn idx s)).

Definition is_digit (c : N) : bool := ((48 <=? c) && (c <=? 57))%N.

Definition hexval (c : N) : option N :=
  if is_digit c then Some (c - 48)%N
  else if ((97 <=? c) && (c <=? 102))%N then Some (c - 87)%N
  else if ((65 <=? c) && (c <=? 70))%N then Some (c - 55)%N
  else None.

(** [_decode_uXXXX(s, pos)] *)
Definition decode_uXXXX (s : pystr) (pos : nat) : result N :=
  match map hexval (substr s (pos + 1) 4) with
  | [Some a; Some b; Some c; Some d] =>
    if length s <=? pos + 5
    then Raise (JSONDecodeError (u "Invalid \uXXXX escape") s pos)
    else Ok (((a * 16 + b) * 16 + c) * 16 + d)%N
  | _ => Raise (JSONDecodeError (u "Invalid \uXXXX escape") s pos)
  end.

(** BACKSLASH *)
Definition backslash (esc : N) : option N :=
  if (esc =? dq)%N then Some dq
  else if (esc =? bsl)%N then Some bsl
  else if (esc =? ch "/")%N then Some (ch "/")
  else if (esc =? ch "b")%N then Some 8%N
  else if (esc =? ch "f")%N then Some 12%N
  else if (esc =? ch "n")%N then Some 10%N
  else if (esc =? ch "r")%N then Some 13%N
  else if (esc =? ch "t")%N then Some 9%N
  else None.

(** STRINGCHUNK: the text up to the first quote, backslash or control
    character at or after [idx], that terminator, and the index after it. *)
Fixpoint stringchunk (rest : pystr) (idx : nat) (content : pystr)
  : option (pystr * N * nat) :=
  match rest with
  | [] => None
  | c :: r =>
    if ((c =? dq) || (c =? bsl) || (c <=? 31))%N
    then Some (content, c, S idx)
    else stringchunk r (S idx) (content ++ [c])
  end.

Definition unterminated (s : pystr) (begin : nat) : exn :=
  JSONDecodeError (u "Unterminated string starting at") s begin.

Fixpoint scanstring_loop (n : nat) (s : pystr) (begin end_ : nat)
    (chunks : pystr) : result (pystr * nat) :=
  match n with
  | O => Raise (unterminated s begin)
  | S n' =>
    match stringchunk (skipn end_ s) end_ [] with
    | None => Raise (unterminated s begin)
    | Some (content, terminator, end_) =>
      let chunks := chunks ++ content in
      if (terminator =? dq)%N then Ok (chunks, end_)
      else if negb (terminator =? bsl)%N then
        Raise (JSONDecodeError (u "Invalid control character at") s (end_ - 1))
      else
        match nth_error s end_ with
        | None => Raise (unterminated s begin)
        | Some esc =>
          if negb (esc =? ch "u")%N then
            match backslash esc with
            | None => Raise (JSONDecodeError (u "Invalid \escape") s (end_ - 1))
            | Some c => scanstring_loop n' s begin (end_ + 1) (chunks ++ [c])
            end
          else
            uni <- decode_uXXXX s end_ ;;
            let end_ := end_ + 5 in
            if ((55296 <=? uni) && (uni <=? 56319))%N
               && pystr_eqb (substr s end_ 2) [bsl; ch "u"]
            then
              uni2 <- decode_uXXXX s (end_ + 1) ;;
              if ((56320 <=? uni2) && (uni2 <=? 57343))%N then
                let uni := (65536 + N.lor (N.shiftl (uni - 55296) 10)
                                          (uni2 - 56320))%N in
                scanstring_loop n' s begin (end_ + 6) (chunks ++ [uni])
              else scanstring_loop n' s begin end_ (chunks ++ [uni])
            else scanstring_loop n' s begin end_ (chunks ++ [uni])
        end
    end
  end.

(** [py_scanstring(s, end)], [end] being the index after the opening quote. *)
Definition scanstring (s : pystr) (end_ : nat) : result (pystr * nat) :=
  scanstring_loop (S (length s)) s (end_ - 1) end_ [].

(** ** Numbers *)

Fixpoint span_digits (rest : pystr) : pystr * pystr :=
  match rest with
  | c :: r =>
    if is_digit c then let '(d, r') := span_digits r in (c :: d, r')
    else ([], rest)
  | [] => ([], [])
  end.

(** NUMBER_RE matched at the head of [rest]: an optional minus sign and
    either a single zero or a non-zero digit followed by digits (group 1), an
    optional point followed by at least one digit (group 2), an optional
    exponent letter, optional sign and at least one digit (group 3).  The
    result is the three groups (an absent group is empty) and the length of
    the match. *)
Definition match_number (rest : pystr) : option (pystr * pystr * pystr * nat) :=
  let '(sign, r0) :=
    match rest with
    | c :: r => if (c =? ch "-")%N then ([c], r) else ([], rest)
    | [] => ([], rest)
    end in
  let int_part :=
    match r0 with
    | c :: r =>
      if (c =? ch "0")%N then Some ([c], r)
      else if is_digit c then let '(d, r') := span_digits r in Some (c :: d, r')
      else None
    | [] => None
    end in
  match int_part with
  | None => None
  | Some (digits, r1) =>
    let integer := sign ++ digits in
    let '(frac, r2) :=
      match r1 with
      | c :: r =>
        if (c =? ch ".")%N then
          match span_digits r with
          | ([], _) => ([], r1)
          | (d, r') => (c :: d, r')
          end
        else ([], r1)
      | [] => ([], r1)
      end in
    let exp :=
      match r2 with
      | c :: r =>
        if ((c =? ch "e") || (c =? ch "E"))%N then
          let '(sg, r') :=
            match r with
            | c' :: r'' =>
              if ((c' =? ch "-") || (c' =? ch "+"))%N then ([c'], r'') else ([], r)
            | [] => ([], r)
            end in
          match span_digits r' with
          | ([], _) => []
          | (d, _) => c :: sg ++ d
          end
        else []
      | [] => []
      end in
    Some (integer, frac, exp, length integer + length frac + length exp)
  end.

Definition N_of_digits (d : pystr) : N :=
  fold_left (fun acc c => (acc * 10 + (c - 48))%N) d 0%N.

(** A signed run of digits, as [(negative, magnitude)]. *)
Definition signed_digits (t : pystr) : bool * pystr :=
  match t with
  | c :: r =>
    if (c =? ch "-")%N then (true, r)
    else if (c =? ch "+")%N then (false, r)
    else (false, t)
  | [] => (false, [])
  end.

(** [sys.int_info.default_max_str_digits] *)
Definition int_max_str_digits : nat := 4300.

(** [int(integer)] *)
Definition parse_int (integer : pystr) : result value :=
  let '(neg, d) := signed_digits integer in
  if int_max_str_digits <? length d then
    Raise (ValueError
      (u "Exceeds the limit (4300 digits) for integer string conversion: value has "
       ++ str_of_nat (length d)
       ++ u " digits; use sys.set_int_max_str_digits() to increase the limit"))
  else
    let m := Z.of_N (N_of_digits d) in
    Ok (VInt (if neg then (- m)%Z else m)).

(** The binary64 number nearest to [(-1)^neg * m * 10^e10], ties to even. *)
Definition float_of_decimal (neg : bool) (m : N) (e10 : Z) : spec_float :=
  match m with
  | N0 => S754_zero neg
  | Npos p =>
    match e10 with
    | Zneg k =>
      SFdiv 53 1024 (S754_finite neg p 0) (S754_finite false (Pos.pow 10 k) 0)
    | Z0 => binary_round 53 1024 neg p 0
    | Zpos k => binary_round 53 1024 neg (p * Pos.pow 10 k) 0
    end
  end.

(** [float(integer + frac + exp)] for the groups of a NUMBER_RE match. *)
Definition parse_float (integer frac exp : pystr) : value :=
  let '(neg, d) := signed_digits integer in
  let fd := tl frac in
  let '(eneg, ed) := signed_digits (tl exp) in
  let e := Z.of_N (N_of_digits ed) in
  let e := if eneg then (- e)%Z else e in
  VFloat (float_of_decimal neg (N_of_digits (d ++ fd))
                           (e - Z.of_nat (length fd))).

(** ** Objects, arrays, values *)

Definition expecting_value (s : pystr) (idx : nat) : exn :=
  JSONDecodeError (u "Expecting value") s idx.

Definition expecting_comma (s : pystr) (idx : nat) : exn :=
  JSONDecodeError (u "Expecting ',' delimiter") s idx.

Definition expecting_name (s : pystr) (idx : nat) : exn :=
  JSONDecodeError (u "Expecting property name enclosed in double quotes") s idx.

(** The optional whitespace skipped before a value: [s[end]] is tested, then
    [s[end + 1]]; an [IndexError] leaves [end] where it was last set. *)
Definition skip_ws_before_value (s : pystr) (end_ : nat) : nat :=
  match nth_error s end_ with
  | Some c =>
    if is_ws c then
      match nth_error s (end_ + 1) with
      | Some c' => if is_ws c' then skip_ws s (end_ + 2) else end_ + 1
      | None => end_ + 1
      end
    else end_
  | None => end_
  end.

Section Scanner.
(** [scan_once], as handed to [JSONObject] and [JSONArray]. *)
Variable scan_once : pystr -> nat -> result (value * nat).

Fixpoint JSONObject_loop (n : nat) (s : pystr) (end_ : nat)
    (pairs : list (pystr * value)) : result (value * nat) :=
  match n with
  | O => Raise RecursionError
  | S n' =>
    '(key, end_) <- scanstring s end_ ;;
    end_ <- (if is_char (nth_error s end_) (ch ":") then Ok end_
             else
               let end_ := skip_ws s end_ in
               if is_char (nth_error s end_) (ch ":") then Ok end_
               else Raise (JSONDecodeError (u "Expecting ':' delimiter") s end_)) ;;
    let end_ := skip_ws_before_value s (end_ + 1) in
    '(v, end_) <- scan_once s end_ ;;
    let pairs := pairs ++ [(key, v)] in
    let '(nextchar, end_) :=
      match nth_error s end_ with
      | Some c =>
        if is_ws c then
          let end_ := skip_ws s (end_ + 1) in (nth_error s end_, end_)
        else (Some c, end_)
      | None => (None, end_)
      end in
    let end_ := end_ + 1 in
    if is_char nextchar (ch "}") then Ok (VDict (dict_of_pairs pairs), end_)
    else if negb (is_char nextchar (ch ",")) then
      Raise (expecting_comma s (end_ - 1))
    else
      let end_ := skip_ws s end_ in
      let nextchar := nth_error s end_ in
      let end_ := end_ + 1 in
      if negb (is_char nextchar dq) then Raise (expecting_name s (end_ - 1))
      else JSONObject_loop n' s end_ pairs
  end.

(** [JSONObject((s, end), ...)], [end] being the index after the brace. *)
Definition JSONObject (s : pystr) (end_ : nat) : result (value * nat) :=
  let nextchar := nth_error s end_ in
  if is_char nextchar dq then JSONObject_loop (S (length s)) s (end_ + 1) []
  else
    let '(nextchar, end_) :=
      if slice_in_ws nextchar
      then let end_ := skip_ws s end_ in (nth_error s end_, end_)
      else (nextchar, end_) in
    if is_char nextchar (ch "}") then Ok (VDict [], end_ + 1)
    else if negb (is_char nextchar dq) then Raise (expecting_name s end_)
    else JSONObject_loop (S (length s)) s (end_ + 1) [].

Fixpoint JSONArray_loop (n : nat) (s : pystr) (end_ : nat)
    (values : list value) : result (value * nat) :=
  match n with
  | O => Raise RecursionError
  | S n' =>
    '(v, end_) <- scan_once s end_ ;;
    let values := values ++ [v] in
    let nextchar := nth_error s end_ in
    let '(nextchar, end_) :=
      if slice_in_ws nextchar
      then let end_ := skip_ws s (end_ + 1) in (nth_error s end_, end_)
      else (nextchar, end_) in
    let end_ := end_ + 1 in
    if is_char nextchar (ch "]") then Ok (VList values, end_)
    else if negb (is_char nextchar (ch ",")) then
      Raise (expecting_comma s (end_ - 1))
    else JSONArray_loop n' s (skip_ws_before_value s end_) values
  end.

(** [JSONArray((s, end), scan_once)] *)
Definition JSONArray (s : pystr) (end_ : nat) : result (value * nat) :=
  let nextchar := nth_error s end_ in
  let '(nextchar, end_) :=
    if slice_in_ws nextchar
    then let end_ := skip_ws s (end_ + 1) in (nth_error s end_, end_)
    else (nextchar, end_) in
  if is_char nextchar (ch "]") then Ok (VList [], end_ + 1)
  else JSONArray_loop (S (length s)) s end_ [].
End Scanner.

(** [_scan_once(string, idx)]; [depth] bounds the nesting. *)
Fixpoint scan_once (depth : nat) (s : pystr) (idx : nat) : result (value * nat) :=
  match depth with
  | O => Raise RecursionError
  | S depth' =>
    match nth_error s idx with
    | None => Raise (expecting_value s idx)
    | Some nextchar =>
      if (nextchar =? dq)%N then
        '(str, end_) <- scanstring s (idx + 1) ;; Ok (VStr str, end_)
      else if (nextchar =? ch "{")%N then JSONObject (scan_once depth') s (idx + 1)
      else if (nextchar =? ch "[")%N then JSONArray (scan_once depth') s (idx + 1)
      else if pystr_eqb (substr s idx 4) (u "null") then Ok (VNone, idx + 4)
      else if pystr_eqb (substr s idx 4) (u "true") then Ok (VBool true, idx + 4)
      else if pystr_eqb (substr s idx 5) (u "false") then Ok (VBool false, idx + 5)
      else
        match match_number (skipn idx s) with
        | Some (integer, frac, exp, len) =>
          match frac, exp with
          | [], [] => res <- parse_int integer ;; Ok (res, idx + len)
          | _, _ => Ok (parse_float integer frac exp, idx + len)
          end
        | None =>
          if pystr_eqb (substr s idx 3) (u "NaN") then Ok (VFloat S754_nan, idx + 3)
          else if pystr_eqb (substr s idx 8) (u "Infinity")
          then Ok (VFloat (S754_infinity false), idx + 8)
          else if pystr_eqb (substr s idx 9) (u "-Infinity")
          then Ok (VFloat (S754_infinity true), idx + 9)
          else Raise (expecting_value s idx)
        end
    end
  end.

(** [json.loads(s)] for a [str]: [JSONDecoder.decode] after the check for a
    byte order mark. *)
Definition loads (s : pystr) : result value :=
  if startswith s [65279%N] then
    Raise (JSONDecodeError (u "Unexpected UTF-8 BOM (decode using utf-8-sig)") s 0)
  else
    '(obj, end_) <- scan_once (S (length s)) s (skip_ws s 0) ;;
    let end_ := skip_ws s end_ in
    if negb (end_ =? length s) then Raise (JSONDecodeError (u "Extra data") s end_)
    else Ok obj.

End Json.

(* ================================================================== *)
(** * The application *)

(** ** The external collaborators

    [str_other v] is [str(v)] for a value that is not a [str] (the built-in
    formatting of numbers, [None], lists and dicts); [json_loads] is
    [json.loads] ([Json.loads] is one instance, and the statements below hold
    for any decoder); [service w prompt] is one round trip to the generative
    service from the world [w]: the text of the response
    ([model.generate_content(prompt).text]) or the exception that the call or
    the access to [.text] raised, and the world after it. *)
Section App.

Variable str_other : value -> pystr.
Variable json_loads : pystr -> result value.
Variable World : Type.
Variable service : World -> pystr -> result pystr * World.

(** ** Prompt builder (app.py, lines 19-55) *)

(** [f"{v}"]: a [str] is inserted as it is. *)
Definition py_str (v : value) : pystr :=
  match v with
  | VStr s => s
  | _ => str_other v
  end.

Fixpoint join_lines (ls : list pystr) : pystr :=
  match ls with
  | [] => []
  | [l] => l
  | l :: r => l ++ nl :: join_lines r
  end.

(** One line of the schema: the key and its instruction, both quoted. *)
Definition field (key desc : pystr) : pystr :=
  u "      " ++ q key ++ u ": " ++ q desc.

(** The template, the text before the topic. *)
Definition prompt_intro : pystr :=
  join_lines
    [ [];
      u "    You are an expert curriculum designer for a Grade 10 TLE (Cookery) teacher at St. Mary's Academy, a private Catholic school.";
      u "    Your task is to generate 14 lesson plan components based on the user's provided Topic, Knowledge, and Skill.";
      u "    ";
      u "    PROVIDED BY USER:";
      u "    Topic: " ++ [dq] ].

(** The template, between the topic and the knowledge. *)
Definition prompt_knowledge : pystr :=
  join_lines
    [ [dq];
      u "    Knowledge (PoC): " ++ [dq] ].

(** The template, between the knowledge and the skill. *)
Definition prompt_skill : pystr :=
  join_lines
    [ [dq];
      u "    Skill (PoC): " ++ [dq] ].

(** The template, the text after the skill: the instructions and the 14 keys. *)
Definition prompt_schema : pystr :=
  join_lines
    [ [dq];
      [];
      u "    IMPORTANT: Your response MUST be a single, valid JSON object. Do not add any text or formatting before or after the JSON.";
      u "    You can use newlines (\n) inside the JSON values (like for vocabulary).";
      [];
      u "    Please fill in the values for the following 14 keys, following the instructions for each key:";
      u "    {";
      field (u "rvw") (u "(Review: One short 'How...' question that recalls the previous lesson topic based from the previous day topic.)") ++ u ",";
      field (u "fcs") (u "(Focus: One concise or very extremely brief words that states the primary learning topic of this lesson.)") ++ u ",";
      field (u "vcb") (u "(Vocabularies: Five bulleted technical or unfamiliar terms (each begins with '• ') with one-line student-friendly definitions. Each bulleted word must be on its own line, e.g., '• Term 1: ...\n• Term 2: ...')") ++ u ",";
      field (u "mtv") (u "(Motivation: A short attention-getting opener (title then 1-2 sentence description) that connects to students' experience. Example: 'Poultry Hunt – Students look at pictures of different poultry types...')") ++ u ",";
      field (u "apk") (u "(Activating Prior Knowledge: One 'How...' question that connects students' prior learning/experience to the present topic (not about the main topic itself).)") ++ u ",";
      field (u "activities") (u "(Activities: A classroom-based activity. Format: '<b>Activities:</b> (Creative Title)\nDirection: (Brief steps, resources, grouping, time cue, and expected product)')") ++ u ",";
      field (u "boc") (u "(Broadening of concepts: Exactly one 'How...' question that connects the lesson to wider contexts or applications, like their lives.)") ++ u ",";
      u "      ";
      field (u "values") (u "(Core/Related Values: Choose one core value (Faith / Excellence / Service) and one related value. Write this line exactly: <b>Core/Related Values:</b> <u>[Core] / [Related]</u> then immediately write one reflective question in this exact style: How does [related value] demonstrate [core value] in the context of [topic]? (Reference list: 1. Faith: Strong faith in God; Prophetic witness to Gospel values; Nationalism; Justice; Communion. 2. Excellence: Integrity; Competence; Resourcefulness; Discipline; Self-reliance. 3. Service: Stewardship; Humility; Charity; Courage; Preferential love for the poor))") ++ u ",";
      u "      ";
      field (u "social") (u "(Social Orientation: Start with the social issue title (e.g., Food Waste Reduction, Public Health) as: <b>Social Orientation:</b> <u>[Issue]</u> then write one focused reflective question: How can learning [topic] contribute to [social issue outcome] in the community?)") ++ u ",";
      field (u "discipline") (u "(Lesson Across Discipline: Present two subjects first (format: <b>Lesson Across Discipline:</b> <u>[Subject 1] and [Subject 2]</u>) and write the linking question: How do [Subject 1] principles in [topic] align with [Subject 2] skills and topic in this lesson?)") ++ u ",";
      field (u "biblical") (u "(Biblical Integration: Start the line exactly with <b>Biblical Integration:</b> followed by the full Bible verse (book name, chapter, verse). Use this format: <b>Biblical Integration:</b> <u>Bible Verse - " ++ q (u "The content of the bible verse") ++ u "</u>)") ++ u ",";
      field (u "eva") (u "(Evaluation: A short, pen-and-paper practical assessment task (e.g., Short quiz, essay, identification, classification) that measures the Knowledge.)") ++ u ",";
      field (u "smr_act") (u "(Summary and Action: A single brief 'How...' question that summarizes the main point, AND a second 'How...' question asking students how they will apply the learning in daily life.)") ++ u ",";
      field (u "pua") (u "(Purposive Assignment: A unique, non-repetitive take-home task that can be done at home. Describe expected output, length, medium, and due date placeholder.)");
      u "    }";
      u "    " ].

Definition create_lesson_prompt (topic knowledge skill : value) : pystr :=
  prompt_intro ++ py_str topic
  ++ prompt_knowledge ++ py_str knowledge
  ++ prompt_skill ++ py_str skill
  ++ prompt_schema.

(** ** Response parser (app.py, lines 57-98) *)

Definition fence_open : pystr := u "```json".
Definition fence_close : pystr := u "```".

(** Lines 64-67: the text handed to [json.loads]. *)
Definition strip_code_fence (text : pystr) : pystr :=
  let text :=
    if startswith (strip text) fence_open then slice_from 7 (strip text)
    else text in
  let text :=
    if endswith (strip text) fence_close then slice_to_neg 3 (strip text)
    else text in
  text.

(** The placeholder ["(AI Error)"]. *)
Definition ai_error : value := VStr (u "(AI Error)").

(** [f"AI Response Error: {e}"] *)
Definition error_message (e : exn) : pystr :=
  u "AI Response Error: " ++ exn_str e.

(** Lines 69-76: the decoded document, or the one-key error object. *)
Definition decode_or_error (text : pystr) : value :=
  match json_loads text with
  | Ok data => data
  | Raise e => VDict [(u "error", VStr (error_message e))]
  end.

Import Json.
Local Open Scope result_scope.

Definition parse_ai_response (text : pystr) (knowledge skill : value)
  : result dict :=
  let text := strip_code_fence text in
  let data := decode_or_error text in
  rvw <- py_get data (u "rvw") ai_error ;;
  fcs <- py_get data (u "fcs") ai_error ;;
  vcb <- py_get data (u "vcb") ai_error ;;
  mtv <- py_get data (u "mtv") ai_error ;;
  apk <- py_get data (u "apk") ai_error ;;
  activities <- py_get data (u "activities") ai_error ;;
  boc <- py_get data (u "boc") ai_error ;;
  values <- py_get data (u "values") ai_error ;;
  social <- py_get data (u "social") ai_error ;;
  discipline <- py_get data (u "discipline") ai_error ;;
  biblical <- py_get data (u "biblical") ai_error ;;
  eva <- py_get data (u "eva") ai_error ;;
  smr_act <- py_get data (u "smr_act") ai_error ;;
  pua <- py_get data (u "pua") ai_error ;;
  Ok [ (u "rvw", rvw);
       (u "fcs", fcs);
       (u "vcb", vcb);
       (u "mtv", mtv);
       (u "apk", apk);
       (u "knowledge", knowledge);
       (u "skill", skill);
       (u "activities", activities);
       (u "boc", boc);
       (u "values", values);
       (u "social", social);
       (u "discipline", discipline);
       (u "biblical", biblical);
       (u "eva", eva);
       (u "smr_act", smr_act);
       (u "pua", pua) ].

(** ** Blank record (app.py, lines 100-110)

    Both call sites pass both arguments, so the defaults of the two
    parameters are never used. *)
Definition create_empty_content (knowledge skill : value) : dict :=
  [ (u "rvw", VStr []); (u "fcs", VStr []); (u "vcb", VStr []);
    (u "mtv", VStr []); (u "apk", VStr []);
    (u "knowledge", knowledge); (u "skill", skill);
    (u "activities", VStr []);
    (u "boc", VStr []); (u "values", VStr []); (u "social", VStr []);
    (u "discipline", VStr []); (u "biblical", VStr []);
    (u "eva", VStr []); (u "smr_act", VStr []); (u "pua", VStr []) ].

(** ** The route (app.py, lines 113-154) *)

(** What a request can change: the world behind the service, and the list of
    prompts sent to it so far. *)
Record state : Type := mkState { world : World; calls : list pystr }.

(** Computations that may raise and that thread the state; the state
    survives an exception. *)
Definition M (A : Type) : Type := state -> result A * state.

Definition ret {A} (a : A) : M A := fun st => (Ok a, st).
Definition lift {A} (r : result A) : M A := fun st => (r, st).
Definition bind {A B} (m : M A) (k : A -> M B) : M B :=
  fun st =>
    match m st with
    | (Ok a, st') => k a st'
    | (Raise e, st') => (Raise e, st')
    end.

(** [try: body / except Exception as e: handler(e)] *)
Definition try_except {A} (body : M A) (handler : exn -> M A) : M A :=
  fun st =>
    match body st with
    | (Ok a, st') => (Ok a, st')
    | (Raise e, st') => handler e st'
    end.

Declare Scope m_scope.
Delimit Scope m_scope with M.
Notation "x <<- c1 ;; c2" := (bind c1 (fun x => c2))
  (at level 61, c1 at next level, right associativity) : m_scope.
Local Open Scope m_scope.

(** [model.generate_content(full_prompt)] followed by [response.text] *)
Definition model_generate_text (full_prompt : pystr) : M pystr :=
  fun st =>
    let '(r, w) := service (world st) full_prompt in
    (r, mkState w (calls st ++ [full_prompt])).

(** The blank check of line 128. *)
Definition is_blank (topic knowledge skill : value) : bool :=
  negb (truthy topic) || negb (truthy knowledge) || negb (truthy skill).

(** The body of the loop (lines 123-145): the record appended for [day]. *)
Definition process_day (day : value) : M value :=
  topic <<- lift (py_get day (u "topic") VNone) ;;
  knowledge <<- lift (py_get day (u "knowledge") VNone) ;;
  skill <<- lift (py_get day (u "skill") VNone) ;;
  if is_blank topic knowledge skill then
    ret (VDict (create_empty_content knowledge skill))
  else
    try_except
      (let full_prompt := create_lesson_prompt topic knowledge skill in
       text <<- model_generate_text full_prompt ;;
       parsed_content <<- lift (parse_ai_response text knowledge skill) ;;
       ret (VDict parsed_content))
      (fun _ => ret (VDict (create_empty_content knowledge skill))).

(** [for day in days_data: ...], appending to [all_results]. *)
Fixpoint for_days (days : list value) (all_results : list value)
  : M (list value) :=
  match days with
  | [] => ret all_results
  | day :: rest =>
    r <<- process_day day ;;
    for_days rest (all_results ++ [r])
  end.

(** A response: the value handed to [jsonify] and the status code. *)
Definition response : Type := (value * nat)%type.

(** [request_json] is the outcome of evaluating [request.json], which is
    inside the outer [try]. *)
Definition generate_content (request_json : result value)
  : state -> response * state :=
  fun st =>
    match (data <<- lift request_json ;;
           days_data <<- lift (py_get data (u "days") VNone) ;;
           days <<- lift (py_iter days_data) ;;
           for_days days []) st with
    | (Ok all_results, st') =>
      ((VDict [(u "results", VList all_results)], 200), st')
    | (Raise e, st') =>
      ((VDict [(u "error", VStr (exn_str e))], 500), st')
    end.

End App.

(* ================================================================== *)
(** * Vocabulary of the statements *)

(** The 14 keys filled by the service, and the 16 keys of a record in the
    order of the dict displays of [parse_ai_response] and
    [create_empty_content]. *)
Definition ai_keys : list pystr :=
  [ u "rvw"; u "fcs"; u "vcb"; u "mtv"; u "apk"; u "activities"; u "boc";
    u "values"; u "social"; u "discipline"; u "biblical"; u "eva";
    u "smr_act"; u "pua" ].

Definition record_keys : list pystr :=
  [ u "rvw"; u "fcs"; u "vcb"; u "mtv"; u "apk"; u "knowledge"; u "skill";
    u "activities"; u "boc"; u "values"; u "social"; u "discipline";
    u "biblical"; u "eva"; u "smr_act"; u "pua" ].

Definition is_dict (v : value) : bool :=
  match v with VDict _ => true | _ => false end.

(** [d.get(key)] and [d.get(key, default)] on a dictionary. *)
Definition get_or (d : dict) (key : pystr) (default : value) : value :=
  match dict_get d key with Some v => v | None => default end.

(** [day.get(key)] for a day entry that is an object. *)
Definition day_field (day : value) (key : pystr) : value :=
  match day with
  | VDict d => get_or d key VNone
  | _ => VNone
  end.

(** A field of a day entry is absent (no such key), null or the empty
    string. *)
Definition absent_or_empty (d : dict) (key : pystr) : Prop :=
  dict_get d key = None \/ dict_get d key = Some VNone
  \/ dict_get d key = Some (VStr []).

(** The rule for one AI field as the specification words it: the decoded
    value when the key is present and holds a string, the placeholder
    otherwise. *)
Definition spec_field (d : dict) (key : pystr) : value :=
  match dict_get d key with
  | Some (VStr s) => VStr s
  | _ => ai_error
  end.

(** The record [parse_ai_response] builds from a decoded object. *)
Definition filled_record (d : dict) (knowledge skill : value) : dict :=
  [ (u "rvw", get_or d (u "rvw") ai_error);
    (u "fcs", get_or d (u "fcs") ai_error);
    (u "vcb", get_or d (u "vcb") ai_error);
    (u "mtv", get_or d (u "mtv") ai_error);
    (u "apk", get_or d (u "apk") ai_error);
    (u "knowledge", knowledge);
    (u "skill", skill);
    (u "activities", get_or d (u "activities") ai_error);
    (u "boc", get_or d (u "boc") ai_error);
    (u "values", get_or d (u "values") ai_error);
    (u "social", get_or d (u "social") ai_error);
    (u "discipline", get_or d (u "discipline") ai_error);
    (u "biblical", get_or d (u "biblical") ai_error);
    (u "eva", get_or d (u "eva") ai_error);
    (u "smr_act", get_or d (u "smr_act") ai_error);
    (u "pua", get_or d (u "pua") ai_error) ].

(** The record whose 14 AI fields all hold [v]. *)
Definition uniform_record (v knowledge skill : value) : dict :=
  [ (u "rvw", v); (u "fcs", v); (u "vcb", v); (u "mtv", v); (u "apk", v);
    (u "knowledge", knowledge); (u "skill", skill); (u "activities", v);
    (u "boc", v); (u "values", v); (u "social", v); (u "discipline", v);
    (u "biblical", v); (u "eva", v); (u "smr_act", v); (u "pua", v) ].

(** The field rule of the parser as the specification words it, for a
    decoder [json_loads]. *)
Definition field_rule_as_specified (json_loads : pystr -> result value) : Prop :=
  forall text knowledge skill d,
    json_loads (strip_code_fence text) = Ok (VDict d) ->
    exists r,
      parse_ai_response json_loads text knowledge skill = Ok r /\
      forall key, In key ai_keys -> dict_get r key = Some (spec_field d key).

(** The record appended for a day whose three fields are all there, from
    the outcome of the round trip to the service: the parsed record, or the
    blank one when the call or the parsing raised. *)
Definition record_of_outcome (json_loads : pystr -> result value)
    (outcome : result pystr) (knowledge skill : value) : dict :=
  match outcome with
  | Ok text =>
    match parse_ai_response json_loads text knowledge skill with
    | Ok r => r
    | Raise _ => create_empty_content knowledge skill
    end
  | Raise _ => create_empty_content knowledge skill
  end.

(** [r] is a record produced for the day entry [day]: the loop body returns
    it from some state, it has the 16 keys, and its knowledge and skill are
    those of [day]. *)
Definition answers (str_other : value -> pystr)
    (json_loads : pystr -> result value) {World : Type}
    (service : World -> pystr -> result pystr * World)
    (day r : value) : Prop :=
  exists rec st_i st_j,
    r = VDict rec
    /\ process_day str_other json_loads service day st_i = (Ok r, st_j)
    /\ keys rec = record_keys
    /\ dict_get rec (u "knowledge") = Some (day_field day (u "knowledge"))
    /\ dict_get rec (u "skill") = Some (day_field day (u "skill")).

(** The days of a request can be enumerated: the body is an object and a
    [for] loop over its [days] value does not raise. *)
Definition days_enumerable (request_json : result value) : bool :=
  match request_json with
  | Ok (VDict p) =>
    match py_iter (get_or p (u "days") VNone) with
    | Ok _ => true
    | Raise _ => false
    end
  | _ => false
  end.

(** The batch-level rule as the specification words it, for a handler: a
    request whose days cannot be enumerated is answered 500 with an error
    field, and nothing else is answered with a status other than 200. *)
Definition rejection_rule_as_specified {S : Type}
    (handle : result value -> S -> response * S) : Prop :=
  forall request_json st,
    (days_enumerable request_json = false ->
     snd (fst (handle request_json st)) = 500
     /\ exists msg, fst (fst (handle request_json st)) = VDict [(u "error", VStr msg)])
    /\ (snd (fst (handle request_json st)) <> 200 ->
        days_enumerable request_json = false).

(** The requests that are answered with a list of results: the body is an
    object whose [days] value is a list of objects (or an empty string or an
    empty object, which enumerate no entry at all). *)
Definition accepted (request_json : result value) : bool :=
  match request_json with
  | Ok (VDict p) =>
    match dict_get p (u "days") with
    | Some (VList days) => forallb is_dict days
    | Some (VStr []) => true
    | Some (VDict []) => true
    | _ => false
    end
  | _ => false
  end.

(** ** Further vocabulary: the entries of a batch *)

(** The blank check of line 128 on a day entry that is an object. *)
Definition day_is_blank (day : value) : bool :=
  is_blank (day_field day (u "topic")) (day_field day (u "knowledge"))
           (day_field day (u "skill")).

(** The prompt built for a day entry (line 134). *)
Definition day_prompt (str_other : value -> pystr) (day : value) : pystr :=
  create_lesson_prompt str_other (day_field day (u "topic"))
    (day_field day (u "knowledge")) (day_field day (u "skill")).

(** The prompts of the entries that pass the blank check, in order. *)
Definition prompts_of (str_other : value -> pystr) (days : list value)
  : list pystr :=
  map (day_prompt str_other) (filter (fun day => negb (day_is_blank day)) days).

(** The blank record of a day entry (line 129). *)
Definition blank_record_of (day : value) : value :=
  VDict (create_empty_content (day_field day (u "knowledge"))
                              (day_field day (u "skill"))).

(** The request body [{"days": days}], and the two shapes of a response. *)
Definition batch (days : list value) : result value :=
  Ok (VDict [(u "days", VList days)]).

Definition results_response (all_results : list value) : response :=
  (VDict [(u "results", VList all_results)], 200).

Definition error_response (msg : pystr) : response :=
  (VDict [(u "error", VStr msg)], 500).

(** The values Python treats as false. *)
Definition falsy (v : value) : Prop :=
  v = VNone \/ v = VBool false \/ v = VInt 0
  \/ (exists sign, v = VFloat (S754_zero sign))
  \/ v = VStr [] \/ v = VList [] \/ v = VDict [].

(** The message of the exception a rejected request ends with, when the
    days cannot be enumerated: reading the body failed, the body has no
    [get], or the [days] value cannot be iterated. *)
Definition rejection_message (request_json : result value) : pystr :=
  match request_json with
  | Raise e => exn_str e
  | Ok (VDict p) =>
    u "'" ++ type_name (get_or p (u "days") VNone) ++ u "' object is not iterable"
  | Ok v => u "'" ++ type_name v ++ u "' object has no attribute 'get'"
  end.

(** [part] is a contiguous part of [whole]. *)
Definition infix (part whole : pystr) : Prop :=
  exists before after, whole = before ++ part ++ after.

(** A search for [part] in [whole], from the left. *)
Fixpoint infixb (part whole : pystr) : bool :=
  startswith whole part
  || match whole with
     | [] => false
     | _ :: rest => infixb part rest
     end.

(** The start of the schema line of a key: the indentation, the key between
    double quotes, and the colon. *)
Definition schema_line_start (key : pystr) : pystr :=
  u "      " ++ q key ++ u ": ".

(** A character with which no JSON value starts (and which is not JSON
    whitespace). *)
Definition value_start (c : N) : bool :=
  ((c =? 34) || (c =? 123) || (c =? 91) || (c =? 110) || (c =? 116)
   || (c =? 102) || (c =? 45) || (48 <=? c) && (c <=? 57)
   || (c =? 78) || (c =? 73))%N.

(** ** A scripted service, for the examples

    The world is the list of outcomes the service will produce, in order;
    once the script is exhausted the service is unreachable.  The examples
    format only [str] values, so [no_format] is never consulted there. *)
Module Demo.

Definition World : Type := list (result pystr).

Definition service (w : World) (prompt : pystr) : result pystr * World :=
  match w with
  | [] => (Raise (ExternalError (u "service unavailable")), [])
  | r :: w' => (r, w')
  end.

Definition no_format (v : value) : pystr := [].

Definition start (script : World) : state World := mkState script [].

Definition parse := parse_ai_response Json.loads.
Definition step := process_day no_format Json.loads service.
Definition handle := generate_content no_format Json.loads service.

(** The texts of the examples. *)
Definition fenced_rvw : pystr :=
  u "```json" ++ [nl] ++ u "{" ++ q (u "rvw") ++ u ":" ++ q (u "Q?") ++ u "}"
  ++ [nl] ++ u "```".

Definition not_json : pystr := u "not json at all".

Definition rvw_number : pystr := u "{" ++ q (u "rvw") ++ u ": 5}".

Definition empty_array : pystr := u "[]".

(** A day entry with its three fields, and some batches. *)
Definition day (topic knowledge skill : pystr) : value :=
  VDict [ (u "topic", VStr topic); (u "knowledge", VStr knowledge);
          (u "skill", VStr skill) ].

Definition poultry : value :=
  day (u "Poultry") (u "Kinds of poultry") (u "Classify poultry").

Definition eggs_no_skill : value :=
  VDict [ (u "topic", VStr (u "Eggs")); (u "knowledge", VStr (u "Egg parts"));
          (u "skill", VStr []) ].

Definition eggs_no_knowledge_key : dict :=
  [ (u "topic", VStr (u "Eggs")); (u "skill", VStr (u "Boil an egg")) ].

Definition salads : dict :=
  [ (u "topic", VStr (u "Salads")); (u "knowledge", VStr (u "Kinds of salad"));
    (u "skill", VStr (u "Mix a salad")) ].

Definition payload (days : list value) : result value :=
  Ok (VDict [(u "days", VList days)]).

(** The service answers the first prompt with the fenced text and fails on
    the second. *)
Definition answer_then_fail : World :=
  [ Ok fenced_rvw; Raise (ExternalError (u "quota exceeded")) ].

(** The service answers one prompt with a text that is not JSON. *)
Definition answer_garbage : World := [ Ok not_json ].

(** A response whose object also holds a [knowledge] key and a key that is
    not a field of the record. *)
Definition with_own_knowledge : pystr :=
  u "{" ++ q (u "knowledge") ++ u ": " ++ q (u "from the service") ++ u ", "
  ++ q (u "extra") ++ u ": 1, " ++ q (u "fcs") ++ u ": " ++ q (u "Eggs") ++ u "}".

(** The fenced text of [fenced_rvw] with white space around it. *)
Definition fenced_rvw_padded : pystr :=
  u "  " ++ fenced_rvw ++ [nl].

(** A fenced text whose opening fence has no language tag. *)
Definition bare_fenced : pystr :=
  u "```" ++ [nl] ++ u "{" ++ q (u "rvw") ++ u ":" ++ q (u "Q?") ++ u "}"
  ++ [nl] ++ u "```".

End Demo.

(* ================================================================== *)
(** * Properties *)

(** ** Strings *)

Lemma pystr_eqb_spec (a b : pystr) : pystr_eqb a b = true <-> a = b.
Proof.
  revert b; induction a as [|x a IH]; intros [|y b]; simpl; split;
    try congruence; try reflexivity.
  - intros H. apply andb_true_iff in H as [Hx Hab].
    apply N.eqb_eq in Hx. apply IH in Hab. congruence.
  - intros H. injection H as -> ->. rewrite N.eqb_refl. simpl. now apply IH.
Qed.

(** Looking up a key that was just stored finds the stored value. *)
Lemma dict_get_set_same (d : dict) (k : pystr) (v : value) :
  dict_get (dict_set d k v) k = Some v.
Proof.
  assert (Hkk : pystr_eqb k k = true) by now apply pystr_eqb_spec.
  induction d as [|[k' v'] d IH]; simpl.
  - now rewrite Hkk.
  - destruct (pystr_eqb k' k) eqn:E; simpl; rewrite E; [reflexivity | exact IH].
Qed.

Lemma startswith_app (p s : pystr) : startswith (p ++ s) p = true.
Proof.
  induction p as [|x p IH]; simpl.
  - reflexivity.
  - now rewrite N.eqb_refl, IH.
Qed.

Lemma endswith_app (s p : pystr) : endswith (s ++ p) p = true.
Proof.
  unfold endswith. rewrite rev_app_distr. apply startswith_app.
Qed.

Lemma slice_from_app (p s : pystr) : slice_from (length p) (p ++ s) = s.
Proof.
  unfold slice_from. induction p as [|x p IH]; simpl; auto.
Qed.

Lemma slice_to_neg_app (s p : pystr) : slice_to_neg (length p) (s ++ p) = s.
Proof.
  unfold slice_to_neg. rewrite length_app.
  replace (length s + length p - length p) with (length s) by lia.
  induction s as [|x s IH]; simpl.
  - reflexivity.
  - now rewrite IH.
Qed.

Lemma dropwhile_app (p : N -> bool) (a b : pystr) (x : N) :
  p x = false -> dropwhile p (a ++ x :: b) = dropwhile p a ++ x :: b.
Proof.
  intros Hx. induction a as [|c a IH]; simpl.
  - now rewrite Hx.
  - destruct (p c); auto.
Qed.

Lemma lstrip_app (a b : pystr) (x : N) :
  isspace x = false -> lstrip (a ++ x :: b) = lstrip a ++ x :: b.
Proof. apply dropwhile_app. Qed.

Lemma rstrip_app (a b : pystr) (x : N) :
  isspace x = false -> rstrip (a ++ b ++ [x]) = a ++ b ++ [x].
Proof.
  intros Hx. unfold rstrip.
  rewrite app_assoc, rev_app_distr. simpl. rewrite Hx.
  change (x :: rev (a ++ b)) with (rev [x] ++ rev (a ++ b)).
  rewrite <- rev_app_distr, rev_involutive. now rewrite <- app_assoc.
Qed.

(** Stripping a text that ends with the closing fence only trims its head. *)
Lemma strip_before_fence_close (body : pystr) :
  strip (body ++ fence_close) = lstrip body ++ fence_close.
Proof.
  unfold strip. change fence_close with (96%N :: [96%N] ++ [96%N]).
  rewrite lstrip_app by reflexivity.
  change (lstrip body ++ 96%N :: [96%N] ++ [96%N])
    with (lstrip body ++ [96%N; 96%N] ++ [96%N]).
  now rewrite rstrip_app.
Qed.

(** ** The code fence *)

Lemma strip_code_fence_both (text body : pystr) :
  strip text = fence_open ++ body ++ fence_close ->
  strip_code_fence text = lstrip body.
Proof.
  intros H. unfold strip_code_fence. rewrite H, startswith_app.
  change 7 with (length fence_open). rewrite slice_from_app.
  rewrite strip_before_fence_close, endswith_app.
  change 3 with (length fence_close). apply slice_to_neg_app.
Qed.

Lemma strip_code_fence_open_only (text rest : pystr) :
  strip text = fence_open ++ rest ->
  endswith (strip rest) fence_close = false ->
  strip_code_fence text = rest.
Proof.
  intros H Hend. unfold strip_code_fence. rewrite H, startswith_app.
  change 7 with (length fence_open). rewrite slice_from_app.
  now rewrite Hend.
Qed.

Lemma strip_code_fence_close_only (text body : pystr) :
  startswith (strip text) fence_open = false ->
  strip text = body ++ fence_close ->
  strip_code_fence text = body.
Proof.
  intros Hstart H. unfold strip_code_fence. rewrite Hstart.
  rewrite H, endswith_app.
  change 3 with (length fence_close). apply slice_to_neg_app.
Qed.

Lemma strip_code_fence_none (text : pystr) :
  startswith (strip text) fence_open = false ->
  endswith (strip text) fence_close = false ->
  strip_code_fence text = text.
Proof.
  intros Hstart Hend. unfold strip_code_fence. now rewrite Hstart, Hend.
Qed.

(** ** The parser, case by case on what the decoder returns *)

Section Parser.

Variable json_loads : pystr -> result value.

Lemma parse_of_object (text : pystr) (knowledge skill : value) (d : dict) :
  json_loads (strip_code_fence text) = Ok (VDict d) ->
  parse_ai_response json_loads text knowledge skill
    = Ok (filled_record d knowledge skill).
Proof.
  intros H. unfold parse_ai_response, decode_or_error. rewrite H. reflexivity.
Qed.

Lemma parse_of_failure (text : pystr) (knowledge skill : value) (e : exn) :
  json_loads (strip_code_fence text) = Raise e ->
  parse_ai_response json_loads text knowledge skill
    = Ok (uniform_record ai_error knowledge skill).
Proof.
  intros H. unfold parse_ai_response, decode_or_error. rewrite H. reflexivity.
Qed.

Lemma parse_of_non_object (text : pystr) (knowledge skill : value) (v : value) :
  json_loads (strip_code_fence text) = Ok v ->
  is_dict v = false ->
  parse_ai_response json_loads text knowledge skill
    = Raise (AttributeError (type_name v) (u "get")).
Proof.
  intros H Hv. unfold parse_ai_response, decode_or_error. rewrite H.
  destruct v; try discriminate; reflexivity.
Qed.

(** Whatever the decoder does, a record that comes out has the 16 keys and
    the two pass-through values. *)
Lemma parse_ok_shape (text : pystr) (knowledge skill : value) (r : dict) :
  parse_ai_response json_loads text knowledge skill = Ok r ->
  keys r = record_keys
  /\ dict_get r (u "knowledge") = Some knowledge
  /\ dict_get r (u "skill") = Some skill.
Proof.
  destruct (json_loads (strip_code_fence text)) as [v|e] eqn:E.
  - destruct v;
      try (rewrite (parse_of_non_object _ _ _ E eq_refl); discriminate).
    rewrite (parse_of_object _ _ _ E). intros [= <-]. repeat split.
  - rewrite (parse_of_failure _ _ _ E). intros [= <-]. repeat split.
Qed.

End Parser.

Lemma uniform_record_ai (v knowledge skill : value) (key : pystr) :
  In key ai_keys -> dict_get (uniform_record v knowledge skill) key = Some v.
Proof.
  unfold ai_keys. simpl In. intros H.
  repeat (destruct H as [<- | H]; [reflexivity |]). contradiction.
Qed.

Lemma filled_record_ai (d : dict) (knowledge skill : value) (key : pystr) :
  In key ai_keys ->
  dict_get (filled_record d knowledge skill) key = Some (get_or d key ai_error).
Proof.
  unfold ai_keys. simpl In. intros H.
  repeat (destruct H as [<- | H]; [reflexivity |]). contradiction.
Qed.

(** ** The prompt builder and the parser *)

(** C9.  The prompt is a function of its three inputs alone: equal inputs
    give equal texts; and for three strings, whatever the formatting of other
    values, the text is the four fixed pieces of the template with the topic,
    the knowledge and the skill inserted between them as they are. *)
Theorem create_lesson_prompt_deterministic_verbatim
    (str_other : value -> pystr) :
  (forall t1 k1 s1 t2 k2 s2 : value,
      t1 = t2 -> k1 = k2 -> s1 = s2 ->
      create_lesson_prompt str_other t1 k1 s1
        = create_lesson_prompt str_other t2 k2 s2)
  /\ (forall topic knowledge skill : pystr,
         create_lesson_prompt str_other (VStr topic) (VStr knowledge) (VStr skill)
           = prompt_intro ++ topic ++ prompt_knowledge ++ knowledge
               ++ prompt_skill ++ skill ++ prompt_schema).
Proof.
  split.
  - intros t1 k1 s1 t2 k2 s2 -> -> ->. reflexivity.
  - intros topic knowledge skill. reflexivity.
Qed.

Lemma create_lesson_prompt_example :
  create_lesson_prompt Demo.no_format
      (VStr (u "Poultry")) (VStr (u "Kinds of poultry")) (VStr (u "Classify poultry"))
    = create_lesson_prompt Demo.no_format
        (VStr (u "Poultry")) (VStr (u "Kinds of poultry")) (VStr (u "Classify poultry"))
  /\ create_lesson_prompt Demo.no_format
       (VStr (u "Poultry")) (VStr (u "Kinds of poultry")) (VStr (u "Classify poultry"))
     = prompt_intro ++ u "Poultry" ++ prompt_knowledge ++ u "Kinds of poultry"
         ++ prompt_skill ++ u "Classify poultry" ++ prompt_schema.
Proof.
  split.
  - exact (proj1 (create_lesson_prompt_deterministic_verbatim Demo.no_format)
             _ _ _ _ _ _ eq_refl eq_refl eq_refl).
  - exact (proj2 (create_lesson_prompt_deterministic_verbatim Demo.no_format)
             _ _ _).
Defined.





(** C3, as the code has it.  When the decoded document is an object, the
    parser returns a record and never raises, and for each of the 14 AI keys
    the field is the value stored under that key whenever the key is present,
    whatever the type of that value, and the placeholder exactly when the key
    is absent. *)
Theorem parse_ai_response_field_rule
    (json_loads : pystr -> result value)
    (text : pystr) (knowledge skill : value) (d : dict) :
  json_loads (strip_code_fence text) = Ok (VDict d) ->
  exists r,
    parse_ai_response json_loads text knowledge skill = Ok r
    /\ forall key, In key ai_keys ->
         (forall v, dict_get d key = Some v -> dict_get r key = Some v)
         /\ (dict_get d key = None -> dict_get r key = Some (VStr (u "(AI Error)"))).
Proof.
  intros H. exists (filled_record d knowledge skill).
  split; [now apply parse_of_object |].
  intros key Hin. rewrite filled_record_ai by assumption. unfold get_or.
  split.
  - intros v ->. reflexivity.
  - intros ->. reflexivity.
Qed.

Lemma parse_ai_response_field_rule_example :
  Json.loads (strip_code_fence Demo.rvw_number) = Ok (VDict [(u "rvw", VInt 5)])
  /\ exists r,
       Demo.parse Demo.rvw_number VNone VNone = Ok r
       /\ forall key, In key ai_keys ->
            (forall v, dict_get [(u "rvw", VInt 5)] key = Some v -> dict_get r key = Some v)
            /\ (dict_get [(u "rvw", VInt 5)] key = None
                -> dict_get r key = Some (VStr (u "(AI Error)"))).
Proof.
  assert (H : Json.loads (strip_code_fence Demo.rvw_number)
              = Ok (VDict [(u "rvw", VInt 5)])) by (vm_compute; reflexivity).
  split.
  - exact H.
  - exact (parse_ai_response_field_rule Json.loads Demo.rvw_number VNone VNone H).
Defined.

(** C3, as the specification words it, fails: the document [{"rvw": 5}]
    holds a number under [rvw], and the parser returns that number where the
    specification's rule asks for the placeholder. *)
Lemma field_rule_as_specified_fails :
  Json.loads (strip_code_fence Demo.rvw_number) = Ok (VDict [(u "rvw", VInt 5)])
  /\ (exists r,
        Demo.parse Demo.rvw_number VNone VNone = Ok r
        /\ dict_get r (u "rvw") = Some (VInt 5))
  /\ spec_field [(u "rvw", VInt 5)] (u "rvw") = VStr (u "(AI Error)")
  /\ ~ field_rule_as_specified Json.loads.
Proof.
  split; [vm_compute; reflexivity |].
  split; [eexists; split; vm_compute; reflexivity |].
  split; [reflexivity |].
  intros Hspec.
  destruct (Hspec Demo.rvw_number VNone VNone [(u "rvw", VInt 5)])
    as [r [Hr Hkeys]]; [vm_compute; reflexivity |].
  specialize (Hkeys (u "rvw") (or_introl eq_refl)).
  vm_compute in Hr. injection Hr as <-.
  vm_compute in Hkeys. discriminate Hkeys.
Qed.

(** C2, where the code departs from it.  The text [[]] is valid JSON, the
    decoder returns a list, and the first [data.get] raises
    [AttributeError]: no record is produced. *)
Theorem parse_ai_response_raises_on_array (knowledge skill : value) :
  Json.loads (strip_code_fence Demo.empty_array) = Ok (VList [])
  /\ parse_ai_response Json.loads Demo.empty_array knowledge skill
     = Raise (AttributeError (u "list") (u "get")).
Proof.
  assert (H : Json.loads (strip_code_fence Demo.empty_array) = Ok (VList []))
    by (vm_compute; reflexivity).
  split; [exact H |].
  exact (parse_of_non_object Json.loads Demo.empty_array knowledge skill H eq_refl).
Qed.

(** ** The loop body and the loop *)

Section Orchestrator.

Variable str_other : value -> pystr.
Variable json_loads : pystr -> result value.
Variable World : Type.
Variable service : World -> pystr -> result pystr * World.

Local Abbreviation step := (process_day str_other json_loads service).
Local Abbreviation days_loop := (for_days str_other json_loads service).
Local Abbreviation handle := (generate_content str_other json_loads service).
Local Abbreviation answers := (answers str_other json_loads service).

Lemma process_day_not_object (v : value) (st : state World) :
  is_dict v = false ->
  step v st = (Raise (AttributeError (type_name v) (u "get")), st).
Proof.
  intros Hv. destruct v; try discriminate; reflexivity.
Qed.

Lemma process_day_blank (d : dict) (st : state World) :
  is_blank (get_or d (u "topic") VNone) (get_or d (u "knowledge") VNone)
           (get_or d (u "skill") VNone) = true ->
  step (VDict d) st
    = (Ok (VDict (create_empty_content (get_or d (u "knowledge") VNone)
                                       (get_or d (u "skill") VNone))), st).
Proof.
  intros Hb. cbv [process_day bind lift py_get ret].
  fold (get_or d (u "topic") VNone) (get_or d (u "knowledge") VNone)
       (get_or d (u "skill") VNone).
  now rewrite Hb.
Qed.

Lemma process_day_generate (d : dict) (st : state World) :
  let topic := get_or d (u "topic") VNone in
  let knowledge := get_or d (u "knowledge") VNone in
  let skill := get_or d (u "skill") VNone in
  let prompt := create_lesson_prompt str_other topic knowledge skill in
  is_blank topic knowledge skill = false ->
  step (VDict d) st
    = (Ok (VDict (record_of_outcome json_loads
                    (fst (service (world st) prompt)) knowledge skill)),
       mkState (snd (service (world st) prompt)) (calls st ++ [prompt])).
Proof.
  intros topic knowledge skill prompt Hb.
  cbv [process_day bind lift py_get ret try_except model_generate_text].
  fold (get_or d (u "topic") VNone) (get_or d (u "knowledge") VNone)
       (get_or d (u "skill") VNone).
  fold topic knowledge skill. rewrite Hb. fold prompt.
  destruct (service (world st) prompt) as [[text|e] w]; simpl.
  - destruct (parse_ai_response json_loads text knowledge skill); reflexivity.
  - reflexivity.
Qed.

Lemma create_empty_content_shape (knowledge skill : value) :
  keys (create_empty_content knowledge skill) = record_keys
  /\ dict_get (create_empty_content knowledge skill) (u "knowledge") = Some knowledge
  /\ dict_get (create_empty_content knowledge skill) (u "skill") = Some skill.
Proof. repeat split. Qed.

Lemma create_empty_content_ai (knowledge skill : value) (key : pystr) :
  In key ai_keys ->
  dict_get (create_empty_content knowledge skill) key = Some (VStr []).
Proof. apply (uniform_record_ai (VStr []) knowledge skill). Qed.

Lemma record_of_outcome_shape (outcome : result pystr) (knowledge skill : value) :
  keys (record_of_outcome json_loads outcome knowledge skill) = record_keys
  /\ dict_get (record_of_outcome json_loads outcome knowledge skill) (u "knowledge")
     = Some knowledge
  /\ dict_get (record_of_outcome json_loads outcome knowledge skill) (u "skill")
     = Some skill.
Proof.
  unfold record_of_outcome. destruct outcome as [text|e].
  - destruct (parse_ai_response json_loads text knowledge skill) as [r|e] eqn:E.
    + exact (parse_ok_shape json_loads text knowledge skill E).
    + apply create_empty_content_shape.
  - apply create_empty_content_shape.
Qed.

(** An entry that is an object always gets a record, with the 16 keys and
    the entry's own knowledge and skill. *)
Lemma process_day_object (d : dict) (st : state World) :
  exists r st',
    step (VDict d) st = (Ok (VDict r), st')
    /\ keys r = record_keys
    /\ dict_get r (u "knowledge") = Some (get_or d (u "knowledge") VNone)
    /\ dict_get r (u "skill") = Some (get_or d (u "skill") VNone).
Proof.
  destruct (is_blank (get_or d (u "topic") VNone) (get_or d (u "knowledge") VNone)
                     (get_or d (u "skill") VNone)) eqn:Hb.
  - eexists _, _. split; [apply process_day_blank; exact Hb |].
    apply create_empty_content_shape.
  - eexists _, _. split; [apply process_day_generate; exact Hb |].
    apply record_of_outcome_shape.
Qed.

Lemma for_days_app (a b : list value) (acc : list value) (st : state World) :
  days_loop (a ++ b) acc st
    = match days_loop a acc st with
      | (Ok acc', st') => days_loop b acc' st'
      | (Raise e, st') => (Raise e, st')
      end.
Proof.
  revert acc st. induction a as [|day a IH]; intros acc st.
  - reflexivity.
  - simpl app. cbn [for_days]. unfold bind.
    destruct (step day st) as [[r|e] st1]; [apply IH | reflexivity].
Qed.

(** Over a list of objects the loop runs to its end and appends one record
    per entry, in order. *)
Lemma for_days_objects (days : list value) :
  Forall (fun v => is_dict v = true) days ->
  forall acc st,
    exists rs st',
      days_loop days acc st = (Ok (acc ++ rs), st')
      /\ Forall2 answers days rs.
Proof.
  induction 1 as [|day days Hday _ IH]; intros acc st.
  - exists [], st. split; [cbn; now rewrite app_nil_r | constructor].
  - destruct day as [| | | | | |d]; try discriminate.
    destruct (process_day_object d st) as (rec & st1 & Hstep & Hk & Hkn & Hsk).
    destruct (IH (acc ++ [VDict rec]) st1) as (rs & st' & Hloop & Hall).
    exists (VDict rec :: rs), st'. split.
    + cbn [for_days]. unfold bind at 1. rewrite Hstep, Hloop.
      now rewrite <- app_assoc.
    + constructor; [| exact Hall].
      exists rec, st, st1. repeat split; assumption.
Qed.

(** The loop stops with an exception at the first entry that is not an
    object. *)
Lemma for_days_not_objects (days : list value) :
  forallb is_dict days = false ->
  forall acc st, exists e st', days_loop days acc st = (Raise e, st').
Proof.
  induction days as [|day days IH]; [discriminate |].
  intros Hf acc st. cbn [for_days]. unfold bind at 1.
  destruct (is_dict day) eqn:Hday.
  - destruct day as [| | | | | |d]; try discriminate.
    destruct (process_day_object d st) as (rec & st1 & Hstep & _).
    rewrite Hstep. apply IH. exact Hf.
  - rewrite (process_day_not_object _ _ Hday). eauto.
Qed.

Lemma generate_content_of_items (p : dict) (items : list value) (st : state World) :
  py_iter (get_or p (u "days") VNone) = Ok items ->
  handle (Ok (VDict p)) st
    = match days_loop items [] st with
      | (Ok all_results, st') =>
        ((VDict [(u "results", VList all_results)], 200), st')
      | (Raise e, st') => ((VDict [(u "error", VStr (exn_str e))], 500), st')
      end.
Proof.
  intros H. cbv [generate_content bind lift py_get].
  fold (get_or p (u "days") VNone). now rewrite H.
Qed.

Lemma generate_content_of_days (p : dict) (days : list value) (st : state World) :
  dict_get p (u "days") = Some (VList days) ->
  handle (Ok (VDict p)) st
    = match days_loop days [] st with
      | (Ok all_results, st') =>
        ((VDict [(u "results", VList all_results)], 200), st')
      | (Raise e, st') => ((VDict [(u "error", VStr (exn_str e))], 500), st')
      end.
Proof.
  intros H. apply generate_content_of_items. unfold get_or. now rewrite H.
Qed.

Lemma for_days_acc (days : list value) (acc : list value) (st : state World) :
  days_loop days acc st
    = match days_loop days [] st with
      | (Ok rs, st') => (Ok (acc ++ rs), st')
      | (Raise e, st') => (Raise e, st')
      end.
Proof.
  revert acc st. induction days as [|day days IH]; intros acc st.
  - cbn. now rewrite app_nil_r.
  - cbn [for_days]. unfold bind.
    destruct (step day st) as [[r|e] st1]; [| reflexivity].
    rewrite (IH (acc ++ [r])), (IH ([] ++ [r])).
    destruct (days_loop days [] st1) as [[rs|e] st2]; [| reflexivity].
    now rewrite <- app_assoc.
Qed.

Lemma Forall2_nth_error_l {A B} (R : A -> B -> Prop) (l1 : list A) (l2 : list B) :
  Forall2 R l1 l2 ->
  forall i a, nth_error l1 i = Some a ->
              exists b, nth_error l2 i = Some b /\ R a b.
Proof.
  induction 1 as [|x y l1 l2 Hxy _ IH]; intros [|i] a Hi; try discriminate.
  - injection Hi as <-. exists y. now split.
  - now apply IH.
Qed.

Lemma forallb_is_dict (days : list value) :
  forallb is_dict days = true -> Forall (fun v => is_dict v = true) days.
Proof.
  intros H. apply Forall_forall. now apply forallb_forall.
Qed.

(** What the handler answers once the entries are enumerated. *)
Lemma generate_content_by_items (p : dict) (items : list value) (st : state World) :
  py_iter (get_or p (u "days") VNone) = Ok items ->
  exists body st',
    handle (Ok (VDict p)) st
      = ((body, if forallb is_dict items then 200 else 500), st')
    /\ (forallb is_dict items = true ->
        exists results,
          body = VDict [(u "results", VList results)]
          /\ days_loop items [] st = (Ok results, st')
          /\ Forall2 answers items results)
    /\ (forallb is_dict items = false ->
        exists msg, body = VDict [(u "error", VStr msg)]).
Proof.
  intros Hit. rewrite (generate_content_of_items _ _ Hit).
  destruct (forallb is_dict items) eqn:Hf.
  - destruct (for_days_objects (forallb_is_dict _ Hf) [] st)
      as (rs & st' & Hloop & Hall).
    rewrite Hloop. simpl app. eexists _, st'. split; [reflexivity |].
    split; [| discriminate]. intros _. exists rs. repeat split; assumption.
  - destruct (for_days_not_objects _ Hf [] st) as (e & st' & Hloop).
    rewrite Hloop. eexists _, st'. split; [reflexivity |].
    split; [discriminate |]. intros _. eexists. reflexivity.
Qed.

(** ** The route *)


(** C5.  A day entry in which the topic, the knowledge or the skill is
    absent, null or the empty string gets the blank record: its 14 AI fields
    are the empty string, which is not the placeholder, and knowledge and
    skill are the entry's own values.  The state is unchanged, so no prompt
    was sent to the service for that entry. *)
Theorem blank_day_gets_empty_record (d : dict) (st : state World) :
  absent_or_empty d (u "topic") \/ absent_or_empty d (u "knowledge")
  \/ absent_or_empty d (u "skill") ->
  exists r,
    step (VDict d) st = (Ok (VDict r), st)
    /\ calls (snd (step (VDict d) st)) = calls st
    /\ keys r = record_keys
    /\ (forall key, In key ai_keys -> dict_get r key = Some (VStr []))
    /\ dict_get r (u "knowledge") = Some (get_or d (u "knowledge") VNone)
    /\ dict_get r (u "skill") = Some (get_or d (u "skill") VNone)
    /\ VStr [] <> VStr (u "(AI Error)").
Proof.
  intros H.
  assert (Hb : is_blank (get_or d (u "topic") VNone)
                        (get_or d (u "knowledge") VNone)
                        (get_or d (u "skill") VNone) = true).
  { unfold is_blank, get_or.
    destruct H as [H | [H | H]]; destruct H as [H | [H | H]]; rewrite H; simpl;
      rewrite ?orb_true_r; reflexivity. }
  eexists. split; [apply process_day_blank; exact Hb |].
  split; [rewrite (process_day_blank _ _ Hb); reflexivity |].
  split; [reflexivity |].
  split; [intros key; apply create_empty_content_ai |].
  split; [reflexivity |]. split; [reflexivity |]. discriminate.
Qed.

(** C10.  A day entry without the [knowledge] key (or without the [skill]
    key) is blank, and the record emitted for it holds [None] in that field,
    not the empty string; a request made of that single entry returns that
    record. *)
Theorem blank_day_passes_None_through (d : dict) (st : state World) :
  dict_get d (u "knowledge") = None \/ dict_get d (u "skill") = None ->
  exists r,
    step (VDict d) st = (Ok (VDict r), st)
    /\ handle (Ok (VDict [(u "days", VList [VDict d])])) st
       = ((VDict [(u "results", VList [VDict r])], 200), st)
    /\ (forall key, In key ai_keys -> dict_get r key = Some (VStr []))
    /\ (dict_get d (u "knowledge") = None -> dict_get r (u "knowledge") = Some VNone)
    /\ (dict_get d (u "skill") = None -> dict_get r (u "skill") = Some VNone)
    /\ VNone <> VStr [].
Proof.
  intros H.
  assert (Hb : is_blank (get_or d (u "topic") VNone)
                        (get_or d (u "knowledge") VNone)
                        (get_or d (u "skill") VNone) = true).
  { unfold is_blank, get_or.
    destruct H as [H | H]; rewrite H; simpl; rewrite ?orb_true_r; reflexivity. }
  eexists. split; [apply process_day_blank; exact Hb |].
  split.
  { rewrite (@generate_content_of_days _ [VDict d]) by reflexivity.
    cbn [for_days]. unfold bind. rewrite (process_day_blank _ _ Hb). reflexivity. }
  split; [intros key; apply create_empty_content_ai |].
  split; [intros Hk; unfold get_or; rewrite Hk; reflexivity |].
  split; [intros Hk; unfold get_or; rewrite Hk; reflexivity |]. discriminate.
Qed.



End Orchestrator.

(** ** The route on the scripted service *)


Lemma blank_day_example :
  exists r,
    Demo.step Demo.eggs_no_skill (Demo.start Demo.answer_then_fail)
      = (Ok (VDict r), Demo.start Demo.answer_then_fail)
    /\ keys r = record_keys
    /\ (forall key, In key ai_keys -> dict_get r key = Some (VStr []))
    /\ dict_get r (u "knowledge") = Some (VStr (u "Egg parts"))
    /\ dict_get r (u "skill") = Some (VStr []).
Proof.
  destruct (@blank_day_gets_empty_record Demo.no_format Json.loads
              Demo.World Demo.service
              [ (u "topic", VStr (u "Eggs")); (u "knowledge", VStr (u "Egg parts"));
                (u "skill", VStr []) ]
              (Demo.start Demo.answer_then_fail))
    as (r & Hstep & _ & Hkeys & Hai & Hk & Hs & _).
  - right; right. right; right. reflexivity.
  - exists r. repeat split; assumption.
Defined.

Lemma blank_day_None_example :
  exists r,
    Demo.step (VDict Demo.eggs_no_knowledge_key) (Demo.start [])
      = (Ok (VDict r), Demo.start [])
    /\ dict_get r (u "knowledge") = Some VNone
    /\ dict_get r (u "skill") = Some (VStr (u "Boil an egg")).
Proof.
  destruct (@blank_day_passes_None_through Demo.no_format Json.loads
              Demo.World Demo.service Demo.eggs_no_knowledge_key (Demo.start []))
    as (r & Hstep & _ & _ & Hk & _ & _).
  - left. reflexivity.
  - exists r. split; [exact Hstep |]. split; [exact (Hk eq_refl) |].
    unfold Demo.step in Hstep. vm_compute in Hstep. injection Hstep as <-.
    reflexivity.
Defined.



(* ================================================================== *)
(** * Further properties of the route *)

Section Batches.

Variable str_other : value -> pystr.
Variable json_loads : pystr -> result value.
Variable World : Type.
Variable service : World -> pystr -> result pystr * World.

Local Abbreviation step := (process_day str_other json_loads service).
Local Abbreviation days_loop := (for_days str_other json_loads service).
Local Abbreviation handle := (generate_content str_other json_loads service).

Lemma batch_days (days : list value) (st : state World) :
  handle (batch days) st
    = match days_loop days [] st with
      | (Ok all_results, st') => (results_response all_results, st')
      | (Raise e, st') => (error_response (exn_str e), st')
      end.
Proof. unfold batch. now rewrite (@generate_content_of_days _ _ _ _ _ days). Qed.

(** The loop sends one prompt for each entry that passes the blank check. *)
Lemma for_days_calls (days : list value) :
  Forall (fun day => is_dict day = true) days ->
  forall acc st,
    calls (snd (days_loop days acc st)) = calls st ++ prompts_of str_other days.
Proof.
  induction 1 as [|day days Hday _ IH]; intros acc st.
  - cbn. now rewrite app_nil_r.
  - destruct day as [| | | | | |d]; try discriminate.
    cbn [for_days]. unfold bind, prompts_of. cbn [filter].
    unfold day_is_blank at 1. unfold day_field at 1 2 3.
    destruct (is_blank (get_or d (u "topic") VNone) (get_or d (u "knowledge") VNone)
                       (get_or d (u "skill") VNone)) eqn:Hb.
    + rewrite (process_day_blank _ _ _ _ _ Hb). cbn [negb]. apply IH.
    + rewrite (process_day_generate _ _ _ _ _ Hb). cbn [negb map].
      rewrite IH. cbn [calls]. now rewrite <- app_assoc.
Qed.



(** X3.  A request whose days cannot be enumerated (the body could not be
    read, the body is not an object, or its [days] value is missing, null, a
    boolean or a number) is answered 500 with the message of the exception
    raised, and the state is left as it was: nothing is sent to the
    service. *)
Theorem rejected_before_loop (request_json : result value) (st : state World) :
  days_enumerable request_json = false ->
  handle request_json st
    = (error_response (rejection_message request_json), st).
Proof.
  intros H. destruct request_json as [v|e]; [| reflexivity].
  destruct v as [| | | | | |p]; try reflexivity.
  unfold days_enumerable in H.
  cbv [generate_content bind lift py_get rejection_message].
  fold (get_or p (u "days") VNone).
  destruct (get_or p (u "days") VNone); try discriminate; reflexivity.
Qed.

(** The values that fail the truth test. *)
Lemma truthy_false_iff (v : value) : truthy v = false <-> falsy v.
Proof.
  unfold falsy. split.
  - destruct v as [|b|z|f|s|l|d]; simpl; intros H.
    + auto.
    + subst b. auto.
    + apply negb_false_iff, Z.eqb_eq in H. subst z. auto.
    + destruct f; try discriminate. right; right; right; left. eauto.
    + destruct s; try discriminate. auto 10.
    + destruct l; try discriminate. auto 10.
    + destruct d; try discriminate. auto 10.
  - intros [-> | [-> | [-> | [[sign ->] | [-> | [-> | ->]]]]]]; reflexivity.
Qed.

Lemma is_blank_iff (topic knowledge skill : value) :
  is_blank topic knowledge skill = true
  <-> falsy topic \/ falsy knowledge \/ falsy skill.
Proof.
  unfold is_blank. rewrite !orb_true_iff, !negb_true_iff, !truthy_false_iff.
  tauto.
Qed.

(** X4.  The blank check is Python's truth test: a day entry is answered
    without a call to the service exactly when its topic, knowledge or skill
    is absent, null, false, zero, or an empty string, list or object; every
    other entry, whatever the types of its three values, sends exactly one
    prompt. *)
Theorem day_calls_service_iff_truthy (d : dict) (st : state World) :
  (calls (snd (step (VDict d) st)) = calls st
   <-> falsy (get_or d (u "topic") VNone)
       \/ falsy (get_or d (u "knowledge") VNone)
       \/ falsy (get_or d (u "skill") VNone))
  /\ (calls (snd (step (VDict d) st)) = calls st
      \/ calls (snd (step (VDict d) st))
         = calls st ++ [day_prompt str_other (VDict d)]).
Proof.
  rewrite <- is_blank_iff.
  destruct (is_blank (get_or d (u "topic") VNone) (get_or d (u "knowledge") VNone)
                     (get_or d (u "skill") VNone)) eqn:Hb.
  - rewrite (process_day_blank _ _ _ _ _ Hb). cbn [snd]. split; [tauto | now left].
  - rewrite (process_day_generate _ _ _ _ _ Hb). cbn [snd calls].
    split; [| now right]. split; [| discriminate].
    intros H. apply (f_equal (@length pystr)) in H.
    rewrite length_app in H. cbn in H. lia.
Qed.

(** X5.  A batch of entries that all fail the blank check is answered from
    the request alone: 200, one blank record per entry in order, and the
    state is left as it was. *)
Theorem blank_batch_needs_no_service (days : list value) (st : state World) :
  Forall (fun day => is_dict day = true /\ day_is_blank day = true) days ->
  handle (batch days) st
    = (results_response (map blank_record_of days), st).
Proof.
  intros H. rewrite batch_days.
  assert (Hloop : forall acc,
             days_loop days acc st = (Ok (acc ++ map blank_record_of days), st)).
  { induction H as [|day days [Hd Hb] _ IH]; intros acc.
    - cbn. now rewrite app_nil_r.
    - destruct day as [| | | | | |d]; try discriminate.
      cbn [for_days map]. unfold bind.
      rewrite (process_day_blank _ _ _ _ _ Hb), IH.
      now rewrite <- app_assoc. }
  now rewrite (Hloop []).
Qed.

(** X6.  Handling two batches one after the other and handling their
    concatenation give the same records and the same final state. *)
Theorem batches_compose
    (a b : list value) (ra rb : list value) (st st1 st2 : state World) :
  handle (batch a) st = (results_response ra, st1) ->
  handle (batch b) st1 = (results_response rb, st2) ->
  handle (batch (a ++ b)) st = (results_response (ra ++ rb), st2).
Proof.
  rewrite !batch_days, for_days_app.
  destruct (days_loop a [] st) as [[ra'|e] st1']; [| discriminate].
  intros [= <- <-] Hb.
  rewrite (for_days_acc str_other json_loads service b ra' st1').
  destruct (days_loop b [] st1') as [[rb'|e] st2']; [| discriminate].
  now injection Hb as <- <-.
Qed.

End Batches.

(* ================================================================== *)
(** * Further properties of the parser and of the prompt builder *)

(** ** What the decoder rejects at its first character *)

Lemma isspace_not_value_start (c : N) :
  isspace c = true -> value_start c = false /\ c <> 65279%N.
Proof.
  unfold isspace. rewrite !orb_true_iff, !andb_true_iff, !N.leb_le, !N.eqb_eq.
  intros H. split; [| lia].
  apply not_true_iff_false. unfold value_start.
  rewrite !orb_true_iff, !andb_true_iff, !N.leb_le, !N.eqb_eq. lia.
Qed.

Lemma is_ws_isspace (c : N) : Json.is_ws c = true -> isspace c = true.
Proof.
  unfold Json.is_ws, isspace.
  rewrite !orb_true_iff, !andb_true_iff, !N.leb_le, !N.eqb_eq. lia.
Qed.

Lemma skipn_nth_error (s : pystr) (i : nat) (c : N) :
  nth_error s i = Some c -> skipn i s = c :: skipn (S i) s.
Proof.
  revert i. induction s as [|x s IH]; intros [|i] H; try discriminate.
  - now injection H as ->.
  - apply IH in H. exact H.
Qed.

Lemma substr_mismatch (s : pystr) (i n : nat) (c x : N) (lit : pystr) :
  nth_error s i = Some c -> (c =? x)%N = false ->
  pystr_eqb (Json.substr s i (S n)) (x :: lit) = false.
Proof.
  intros Hn Hx. unfold Json.substr. rewrite (@skipn_nth_error s i c Hn).
  cbn [firstn pystr_eqb]. now rewrite Hx.
Qed.

Lemma scan_once_no_start (depth : nat) (s : pystr) (i : nat) (c : N) :
  nth_error s i = Some c -> value_start c = false ->
  Json.scan_once (S depth) s i = Raise (Json.expecting_value s i).
Proof.
  intros Hn Hv. unfold value_start in Hv. rewrite !orb_false_iff in Hv.
  destruct Hv as [[[[[[[[[H34 H123] H91] H110] H116] H102] H45] Hdig] H78] H73].
  cbn [Json.scan_once]. rewrite Hn.
  change dq with 34%N. change (Json.ch "{") with 123%N.
  change (Json.ch "[") with 91%N.
  rewrite H34, H123, H91.
  change (u "null") with (110 :: [117; 108; 108])%N.
  change (u "true") with (116 :: [114; 117; 101])%N.
  change (u "false") with (102 :: [97; 108; 115; 101])%N.
  rewrite (@substr_mismatch s i _ c _ _ Hn H110), (@substr_mismatch s i _ c _ _ Hn H116),
    (@substr_mismatch s i _ c _ _ Hn H102).
  rewrite (@skipn_nth_error s i c Hn).
  assert (Hm : Json.match_number (c :: skipn (S i) s) = None).
  { unfold Json.match_number. change (Json.ch "-") with 45%N.
    change (Json.ch "0") with 48%N. rewrite H45.
    assert (H48 : (c =? 48)%N = false).
    { apply not_true_iff_false. intros E. apply N.eqb_eq in E. subst c.
      discriminate Hdig. }
    rewrite H48. unfold Json.is_digit. now rewrite Hdig. }
  rewrite Hm.
  change (u "NaN") with (78 :: [97; 78])%N.
  change (u "Infinity") with (73 :: [110; 102; 105; 110; 105; 116; 121])%N.
  change (u "-Infinity") with (45 :: [73; 110; 102; 105; 110; 105; 116; 121])%N.
  now rewrite (@substr_mismatch s i _ c _ _ Hn H78), (@substr_mismatch s i _ c _ _ Hn H73),
    (@substr_mismatch s i _ c _ _ Hn H45).
Qed.

Lemma takewhile_app_stop (p : N -> bool) (a : pystr) (c : N) (tl : pystr) :
  Forall (fun x => p x = true) a -> p c = false ->
  Json.takewhile p (a ++ c :: tl) = a.
Proof.
  induction 1 as [|x a Hx _ IH]; intros Hc; simpl.
  - now rewrite Hc.
  - now rewrite Hx, IH.
Qed.

Lemma nth_error_middle (a : pystr) (c : N) (tl : pystr) :
  nth_error (a ++ c :: tl) (length a) = Some c.
Proof. induction a; simpl; auto. Qed.

(** A text whose first character after JSON whitespace starts no value is
    rejected with "Expecting value". *)
Lemma loads_expecting_value (a : pystr) (c : N) (tl : pystr) :
  Forall (fun x => Json.is_ws x = true) a ->
  Json.is_ws c = false -> value_start c = false -> c <> 65279%N ->
  Json.loads (a ++ c :: tl)
    = Raise (Json.expecting_value (a ++ c :: tl) (length a)).
Proof.
  intros Ha Hws Hv Hbom. unfold Json.loads.
  assert (Hb : startswith (a ++ c :: tl) [65279%N] = false).
  { destruct Ha as [|x a Hx _]; cbn [app startswith].
    - rewrite andb_true_r. apply N.eqb_neq. congruence.
    - rewrite andb_true_r. apply N.eqb_neq. intros <-.
      apply is_ws_isspace, isspace_not_value_start in Hx. now destruct Hx. }
  rewrite Hb.
  assert (Hi : Json.skip_ws (a ++ c :: tl) 0 = length a).
  { unfold Json.skip_ws. cbn [Nat.min skipn].
    now rewrite (@takewhile_app_stop _ a c tl Ha Hws). }
  rewrite Hi, (@scan_once_no_start _ _ _ c (nth_error_middle a c tl) Hv).
  reflexivity.
Qed.

(** ** Parts of a text *)

Lemma infix_refl (s : pystr) : infix s s.
Proof. exists [], []. now rewrite app_nil_r. Qed.

Lemma infix_trans (x y z : pystr) : infix x y -> infix y z -> infix x z.
Proof.
  intros (b2 & a2 & ->) (b1 & a1 & ->).
  exists (b1 ++ b2), (a2 ++ a1). now rewrite <- !app_assoc.
Qed.

Lemma infix_length (part whole : pystr) :
  infix part whole -> length part <= length whole.
Proof. intros (b & a & ->). rewrite !length_app. lia. Qed.

Lemma dropwhile_split (p : N -> bool) (s : pystr) :
  exists a, s = a ++ dropwhile p s /\ Forall (fun x => p x = true) a.
Proof.
  induction s as [|c s (a & Hs & Ha)]; simpl.
  - exists []. now split.
  - destruct (p c) eqn:Hc.
    + exists (c :: a). split; [simpl; congruence | now constructor].
    + exists []. now split.
Qed.

Lemma rstrip_split (s : pystr) : exists b, s = rstrip s ++ b.
Proof.
  unfold rstrip. destruct (dropwhile_split isspace (rev s)) as (a & Hs & _).
  exists (rev a). rewrite <- rev_app_distr, <- Hs. now rewrite rev_involutive.
Qed.

(** A text is its trimmed form between two runs of characters, the first of
    which is all white space. *)
Lemma strip_split (s : pystr) :
  exists a b, s = a ++ strip s ++ b /\ Forall (fun x => isspace x = true) a.
Proof.
  destruct (dropwhile_split isspace s) as (a & Hs & Ha).
  destruct (rstrip_split (lstrip s)) as (b & Hb).
  exists a, b. split; [| exact Ha].
  unfold strip. fold (lstrip s) in Hs. now rewrite <- Hb.
Qed.

Lemma infix_strip (s : pystr) : infix (strip s) s.
Proof. destruct (strip_split s) as (a & b & H & _). now exists a, b. Qed.

Lemma infix_slice_from (n : nat) (s : pystr) : infix (slice_from n s) s.
Proof.
  exists (firstn n s), []. unfold slice_from.
  now rewrite app_nil_r, firstn_skipn.
Qed.

Lemma infix_slice_to_neg (n : nat) (s : pystr) : infix (slice_to_neg n s) s.
Proof.
  exists [], (skipn (length s - n) s). unfold slice_to_neg.
  now rewrite app_nil_l, firstn_skipn.
Qed.

(** X7.  What is handed to the decoder is always a contiguous part of the
    text received: stripping the fences only removes characters from the two
    ends, never inserts or reorders any, and so never lengthens the text. *)
Theorem strip_code_fence_infix (text : pystr) :
  infix (strip_code_fence text) text
  /\ length (strip_code_fence text) <= length text.
Proof.
  assert (H : infix (strip_code_fence text) text).
  { unfold strip_code_fence.
    set (t1 := if startswith (strip text) fence_open
               then slice_from 7 (strip text) else text).
    assert (H1 : infix t1 text).
    { unfold t1. destruct (startswith (strip text) fence_open).
      - exact (infix_trans (infix_slice_from 7 _) (infix_strip text)).
      - apply infix_refl. }
    destruct (endswith (strip t1) fence_close).
    - exact (infix_trans (infix_trans (infix_slice_to_neg 3 _) (infix_strip t1)) H1).
    - exact H1. }
  split; [exact H | exact (infix_length H)].
Qed.

(** ** A fence without the language tag *)

Lemma backtick_after_space (a tl0 : pystr) :
  Forall (fun x => isspace x = true) a ->
  exists a1 c tl,
    a ++ 96%N :: tl0 = a1 ++ c :: tl
    /\ Forall (fun x => Json.is_ws x = true) a1
    /\ Json.is_ws c = false /\ value_start c = false /\ c <> 65279%N.
Proof.
  induction 1 as [|x a Hx _ (a1 & c & tl & Heq & Ha1 & Hc)].
  - exists [], 96%N, tl0. repeat split; try reflexivity; [constructor | discriminate].
  - destruct (Json.is_ws x) eqn:Hws.
    + exists (x :: a1), c, tl. simpl. rewrite Heq.
      split; [reflexivity |]. split; [now constructor | exact Hc].
    + exists [], x, (a ++ 96%N :: tl0).
      destruct (@isspace_not_value_start x Hx) as [Hv Hbom].
      repeat split; try assumption. constructor.
Qed.

Lemma loads_backtick (tl : pystr) :
  exists e, Json.loads (96%N :: tl) = Raise e.
Proof.
  eexists.
  apply (@loads_expecting_value [] 96%N tl); try reflexivity;
    [constructor | discriminate].
Qed.


(** ** The record of the parser *)

Lemma dict_get_not_key (r : dict) (key : pystr) :
  ~ In key (keys r) -> dict_get r key = None.
Proof.
  induction r as [|[k v] r IH]; simpl; intros H; [reflexivity |].
  destruct (pystr_eqb k key) eqn:E.
  - apply pystr_eqb_spec in E. tauto.
  - apply IH. tauto.
Qed.

(** X9.  Whenever the parser returns a record, the record has exactly the 16
    keys, in the order of the dict display: a key of the decoded object that
    is not one of the 14 AI keys is dropped, and knowledge and skill are the
    two arguments even when the decoded object has keys of those names. *)
Theorem parse_ai_response_record_shape
    (json_loads : pystr -> result value)
    (text : pystr) (knowledge skill : value) (r : dict) :
  parse_ai_response json_loads text knowledge skill = Ok r ->
  keys r = record_keys
  /\ dict_get r (u "knowledge") = Some knowledge
  /\ dict_get r (u "skill") = Some skill
  /\ forall key, ~ In key record_keys -> dict_get r key = None.
Proof.
  intros H.
  destruct (parse_ok_shape json_loads text knowledge skill H) as (Hk & Hkn & Hsk).
  repeat split; try assumption.
  intros key Hkey. apply dict_get_not_key. now rewrite Hk.
Qed.


(** ** One day entry, from the prompt to the record *)

Section Days.

Variable str_other : value -> pystr.
Variable json_loads : pystr -> result value.
Variable World : Type.
Variable service : World -> pystr -> result pystr * World.

Local Abbreviation step := (process_day str_other json_loads service).

(** X11.  For a day entry that passes the blank check, when the service
    answers the entry's prompt with a text that decodes to an object, the
    record appended is built from that object (each AI field the object's
    value, or the placeholder when the object lacks the key) with the entry's
    own knowledge and skill, and the prompt is added to those sent. *)
Theorem day_record_from_service_object
    (d : dict) (st : state World) (text : pystr) (o : dict) :
  day_is_blank (VDict d) = false ->
  fst (service (world st) (day_prompt str_other (VDict d))) = Ok text ->
  json_loads (strip_code_fence text) = Ok (VDict o) ->
  step (VDict d) st
    = (Ok (VDict (filled_record o (day_field (VDict d) (u "knowledge"))
                                  (day_field (VDict d) (u "skill")))),
       mkState (snd (service (world st) (day_prompt str_other (VDict d))))
               (calls st ++ [day_prompt str_other (VDict d)]))
  /\ forall key, In key ai_keys ->
       dict_get (filled_record o (day_field (VDict d) (u "knowledge"))
                                 (day_field (VDict d) (u "skill"))) key
         = Some (get_or o key (VStr (u "(AI Error)"))).
Proof.
  intros Hb Hsvc Hdec. split; [| intros key; apply filled_record_ai].
  unfold day_prompt, day_field in *.
  rewrite (@process_day_generate str_other json_loads World service d st Hb).
  rewrite Hsvc.
  unfold record_of_outcome.
  now rewrite (parse_of_object json_loads text _ _ Hdec).
Qed.


End Days.

(** ** The prompt as a function of one field *)

(** X13.  With the other two fields fixed, two different topics give two
    different prompts, and likewise for the knowledge and for the skill:
    nothing of a field is cut, trimmed or normalised on its way into the
    prompt. *)
Theorem create_lesson_prompt_injective_in_each_field
    (str_other : value -> pystr) (t1 t2 k1 k2 s1 s2 : pystr) :
  (create_lesson_prompt str_other (VStr t1) (VStr k1) (VStr s1)
     = create_lesson_prompt str_other (VStr t2) (VStr k1) (VStr s1)
   -> t1 = t2)
  /\ (create_lesson_prompt str_other (VStr t1) (VStr k1) (VStr s1)
        = create_lesson_prompt str_other (VStr t1) (VStr k2) (VStr s1)
      -> k1 = k2)
  /\ (create_lesson_prompt str_other (VStr t1) (VStr k1) (VStr s1)
        = create_lesson_prompt str_other (VStr t1) (VStr k1) (VStr s2)
      -> s1 = s2).
Proof.
  unfold create_lesson_prompt, py_str. repeat split; intros H.
  - apply app_inv_head in H. now apply app_inv_tail in H.
  - do 3 apply app_inv_head in H. now apply app_inv_tail in H.
  - do 5 apply app_inv_head in H. now apply app_inv_tail in H.
Qed.

(** ** White space around a fenced text, and the keys of the schema *)

(** X14.  When the trimmed text carries a fence marker at either end, what is
    handed to the decoder depends on the trimmed text only: white space
    before or after a fenced response changes nothing in the record. *)
Theorem strip_code_fence_ignores_outer_space (t1 t2 : pystr) :
  strip t1 = strip t2 ->
  startswith (strip t1) fence_open = true
  \/ endswith (strip t1) fence_close = true ->
  strip_code_fence t1 = strip_code_fence t2
  /\ forall (json_loads : pystr -> result value) (knowledge skill : value),
       parse_ai_response json_loads t1 knowledge skill
         = parse_ai_response json_loads t2 knowledge skill.
Proof.
  intros Hs Hfence.
  assert (H : strip_code_fence t1 = strip_code_fence t2).
  { unfold strip_code_fence. rewrite <- Hs.
    destruct (startswith (strip t1) fence_open); [reflexivity |].
    destruct Hfence as [Hf | Hf]; [discriminate |].
    rewrite <- Hs, Hf. reflexivity. }
  split; [exact H |].
  intros json_loads knowledge skill. unfold parse_ai_response. now rewrite H.
Qed.

Lemma startswith_prefix (s p : pystr) :
  startswith s p = true -> exists rest, s = p ++ rest.
Proof.
  revert s. induction p as [|x p IH]; intros s H.
  - now exists s.
  - destruct s as [|y s]; [discriminate |]. simpl in H.
    apply andb_true_iff in H as [Hxy Hp]. apply N.eqb_eq in Hxy. subst y.
    destruct (IH s Hp) as [rest ->]. now exists rest.
Qed.

Lemma infixb_sound (part whole : pystr) :
  infixb part whole = true -> infix part whole.
Proof.
  induction whole as [|c whole IH]; cbn [infixb]; intros H;
    apply orb_true_iff in H as [H | H].
  - destruct (startswith_prefix _ _ H) as [rest ->]. now exists [], rest.
  - discriminate.
  - destruct (startswith_prefix _ _ H) as [rest Hr]. rewrite Hr. now exists [], rest.
  - destruct (IH H) as (b & a & ->). now exists (c :: b), a.
Qed.

(** X15.  Every key the parser reads is asked for by the prompt: whatever the
    three inputs, the prompt contains, for each of the 14 AI keys, the schema
    line that starts with that key between double quotes. *)
Theorem create_lesson_prompt_names_parsed_keys
    (str_other : value -> pystr) (topic knowledge skill : value) (key : pystr) :
  In key ai_keys ->
  infix (schema_line_start key)
        (create_lesson_prompt str_other topic knowledge skill).
Proof.
  intros Hin.
  assert (Hs : infix (schema_line_start key) prompt_schema).
  { apply infixb_sound. revert Hin. unfold ai_keys. simpl In. intros Hin.
    repeat (destruct Hin as [<- | Hin]; [vm_compute; reflexivity |]).
    contradiction. }
  destruct Hs as (b & a & Hs). unfold create_lesson_prompt. rewrite Hs.
  exists (prompt_intro ++ py_str str_other topic ++ prompt_knowledge
            ++ py_str str_other knowledge ++ prompt_skill
            ++ py_str str_other skill ++ b), a.
  now rewrite <- !app_assoc.
Qed.

(* ================================================================== *)
(** * The further properties on the scripted service *)



Lemma rejected_before_loop_example :
  Demo.handle (Ok (VDict [(u "day", VList [])])) (Demo.start Demo.answer_then_fail)
    = (error_response (u "'" ++ type_name VNone ++ u "' object is not iterable"),
       Demo.start Demo.answer_then_fail).
Proof.
  apply (@rejected_before_loop Demo.no_format Json.loads Demo.World Demo.service
           (Ok (VDict [(u "day", VList [])])) (Demo.start Demo.answer_then_fail)).
  reflexivity.
Defined.

Lemma blank_batch_example :
  Demo.handle (batch [Demo.eggs_no_skill; VDict Demo.eggs_no_knowledge_key])
              (Demo.start Demo.answer_then_fail)
    = (results_response
         [ VDict (create_empty_content (VStr (u "Egg parts")) (VStr []));
           VDict (create_empty_content VNone (VStr (u "Boil an egg"))) ],
       Demo.start Demo.answer_then_fail).
Proof.
  apply (@blank_batch_needs_no_service Demo.no_format Json.loads
           Demo.World Demo.service
           [Demo.eggs_no_skill; VDict Demo.eggs_no_knowledge_key]
           (Demo.start Demo.answer_then_fail)).
  repeat constructor.
Defined.

Lemma batches_compose_example :
  exists ra rb st1 st2,
    Demo.handle (batch [Demo.poultry]) (Demo.start Demo.answer_then_fail)
      = (results_response ra, st1)
    /\ Demo.handle (batch [VDict Demo.salads; Demo.eggs_no_skill]) st1
       = (results_response rb, st2)
    /\ Demo.handle (batch ([Demo.poultry] ++ [VDict Demo.salads; Demo.eggs_no_skill]))
                   (Demo.start Demo.answer_then_fail)
       = (results_response (ra ++ rb), st2).
Proof.
  assert (Ha : exists ra st1,
             Demo.handle (batch [Demo.poultry]) (Demo.start Demo.answer_then_fail)
               = (results_response ra, st1))
    by (eexists _, _; vm_compute; reflexivity).
  destruct Ha as (ra & st1 & Ha).
  assert (Hst1 : st1 = mkState [Raise (ExternalError (u "quota exceeded"))]
                               [day_prompt Demo.no_format Demo.poultry]).
  { vm_compute in Ha. injection Ha as _ <-. vm_compute. reflexivity. }
  assert (Hb : exists rb st2,
             Demo.handle (batch [VDict Demo.salads; Demo.eggs_no_skill]) st1
               = (results_response rb, st2))
    by (rewrite Hst1; eexists _, _; vm_compute; reflexivity).
  destruct Hb as (rb & st2 & Hb).
  exists ra, rb, st1, st2. split; [exact Ha |]. split; [exact Hb |].
  exact (@batches_compose Demo.no_format Json.loads Demo.World Demo.service
           _ _ _ _ _ _ _ Ha Hb).
Defined.


Lemma parse_ai_response_record_shape_example :
  exists r,
    Demo.parse Demo.with_own_knowledge (VStr (u "Egg parts")) (VStr (u "Boil an egg"))
      = Ok r
    /\ dict_get r (u "fcs") = Some (VStr (u "Eggs"))
    /\ dict_get r (u "knowledge") = Some (VStr (u "Egg parts"))
    /\ dict_get r (u "extra") = None.
Proof.
  assert (H : exists r,
             Demo.parse Demo.with_own_knowledge
                        (VStr (u "Egg parts")) (VStr (u "Boil an egg")) = Ok r
             /\ dict_get r (u "fcs") = Some (VStr (u "Eggs")))
    by (eexists; split; vm_compute; reflexivity).
  destruct H as (r & H & Hfcs).
  destruct (@parse_ai_response_record_shape Json.loads Demo.with_own_knowledge
              (VStr (u "Egg parts")) (VStr (u "Boil an egg")) r H)
    as (_ & Hk & _ & Hnone).
  exists r. split; [exact H |]. split; [exact Hfcs |]. split; [exact Hk |].
  apply Hnone. unfold record_keys. simpl In. intros Hin.
  repeat (destruct Hin as [Hin | Hin]; [vm_compute in Hin; discriminate Hin |]).
  exact Hin.
Defined.

Lemma day_record_from_service_object_example :
  Demo.step Demo.poultry (Demo.start Demo.answer_then_fail)
    = (Ok (VDict (filled_record [(u "rvw", VStr (u "Q?"))]
                    (VStr (u "Kinds of poultry")) (VStr (u "Classify poultry")))),
       mkState [Raise (ExternalError (u "quota exceeded"))]
               [day_prompt Demo.no_format Demo.poultry]).
Proof.
  apply (@day_record_from_service_object Demo.no_format Json.loads
           Demo.World Demo.service
           [ (u "topic", VStr (u "Poultry"));
             (u "knowledge", VStr (u "Kinds of poultry"));
             (u "skill", VStr (u "Classify poultry")) ]
           (Demo.start Demo.answer_then_fail) Demo.fenced_rvw
           [(u "rvw", VStr (u "Q?"))]).
  - reflexivity.
  - reflexivity.
  - vm_compute. reflexivity.
Defined.


Lemma create_lesson_prompt_injective_example :
  u "Poultry" = u "Poultry".
Proof.
  apply (proj1 (@create_lesson_prompt_injective_in_each_field Demo.no_format
                  (u "Poultry") (u "Poultry") (u "Kinds of poultry")
                  (u "Kinds of poultry") (u "Classify poultry")
                  (u "Classify poultry"))).
  reflexivity.
Defined.

Lemma strip_code_fence_outer_space_example :
  strip_code_fence Demo.fenced_rvw_padded = strip_code_fence Demo.fenced_rvw
  /\ Demo.parse Demo.fenced_rvw_padded VNone VNone
     = Demo.parse Demo.fenced_rvw VNone VNone.
Proof.
  destruct (@strip_code_fence_ignores_outer_space
              Demo.fenced_rvw_padded Demo.fenced_rvw)
    as [H Hparse].
  - vm_compute. reflexivity.
  - left. vm_compute. reflexivity.
  - split; [exact H | exact (Hparse Json.loads VNone VNone)].
Defined.

Lemma create_lesson_prompt_names_rvw_example :
  infix (schema_line_start (u "rvw"))
        (create_lesson_prompt Demo.no_format
           (VStr (u "Poultry")) (VStr (u "Kinds of poultry"))
           (VStr (u "Classify poultry"))).
Proof.
  apply (@create_lesson_prompt_names_parsed_keys Demo.no_format
           (VStr (u "Poultry")) (VStr (u "Kinds of poultry"))
           (VStr (u "Classify poultry")) (u "rvw")).
  left. reflexivity.
Defined.
